(** * Power-analysis: the Energinet loader and the stacked-area renderer

    A shallow embedding of [energinet_functions.py]:
    - [load_power_data] fetches the ElectricityBalanceNonv records, fills
      missing values with zero, sums the price areas per local hour and
      indexes the result by timestamp;
    - [plot_power_system] scales a private copy of the table, restricts it
      to a date range and issues the matplotlib calls of a stacked-area
      chart.

    Conventions of the embedding.
    - A float cell is an exact rational ([Q]); rounding is not modelled.
    - A pandas [Timestamp] is a number of nanoseconds since the epoch ([Z]),
      a [Timedelta] a number of nanoseconds.
    - The HTTP exchange, the JSON decoder and matplotlib are outside the
      source file: the exchange is an input of the loader, and the calls
      made to matplotlib are recorded, in order, on a canvas.
    - A Python exception is a value of [exn]; a statement that raises ends
      the function with [Raise]. *)

From Stdlib Require Import ZArith QArith Qminmax Lia Ascii String.
From stdpp Require Import gmap strings list sorting pretty.

(** ** Calendar arithmetic and [pd.to_datetime] on ISO 8601 strings *)

Module Time.
Local Open Scope Z_scope.

Definition NS_PER_SECOND : Z := 1000000000.
Definition NS_PER_DAY : Z := 86400 * NS_PER_SECOND.

Definition is_leap (y : Z) : bool :=
  (y mod 4 =? 0) && (negb (y mod 100 =? 0) || (y mod 400 =? 0)).

Definition days_in_month (y m : Z) : Z :=
  if m =? 2 then (if is_leap y then 29 else 28)
  else if (m =? 4) || (m =? 6) || (m =? 9) || (m =? 11) then 30
  else 31.

(** Days between 1970-01-01 and the civil date [y]-[m]-[d] of the
    proleptic Gregorian calendar (years counted from March, so that the
    leap day closes the year). *)
Definition days_from_civil (y m d : Z) : Z :=
  let y' := if m <=? 2 then y - 1 else y in
  let era := y' / 400 in
  let yoe := y' - era * 400 in
  let mp := if m <=? 2 then m + 9 else m - 3 in
  let doy := (153 * mp + 2) / 5 + d - 1 in
  let doe := yoe * 365 + yoe / 4 - yoe / 100 + doy in
  era * 146097 + doe - 719468.

Definition valid_date (y m d : Z) : bool :=
  (1 <=? m) && (m <=? 12) && (1 <=? d) && (d <=? days_in_month y m).

Definition valid_clock (h mi s : Z) : bool :=
  (h <=? 23) && (mi <=? 59) && (s <=? 59).

Definition timestamp_of (y m d h mi s : Z) : Z :=
  (((days_from_civil y m d * 24 + h) * 60 + mi) * 60 + s) * NS_PER_SECOND.

(** *** Reading fixed-width fields *)

Definition digit (c : ascii) : option Z :=
  let n := Z.of_N (N_of_ascii c) in
  if (48 <=? n) && (n <=? 57) then Some (n - 48) else None.

(** [num n acc s] reads exactly [n] decimal digits from the front of [s]. *)
Fixpoint num (n : nat) (acc : Z) (s : string) : option (Z * string) :=
  match n with
  | O => Some (acc, s)
  | S n' =>
      match s with
      | String c s' =>
          match digit c with
          | Some d => num n' (10 * acc + d) s'
          | None => None
          end
      | EmptyString => None
      end
  end.

Definition expect (c : ascii) (s : string) : option string :=
  match s with
  | String c' s' => if Ascii.eqb c c' then Some s' else None
  | EmptyString => None
  end.

(** The resolution of a parsed string: pandas slices a [DatetimeIndex] by
    the whole period a string denotes. *)
Inductive resolution := ResDay | ResSecond.

Definition resolution_ns (r : resolution) : Z :=
  match r with ResDay => NS_PER_DAY | ResSecond => NS_PER_SECOND end.

Definition parse_clock (s : string) : option (Z * Z * Z) :=
  '(h, s) ← num 2 0 s;
  s ← expect ":" s;
  '(mi, s) ← num 2 0 s;
  s ← expect ":" s;
  '(sec, s) ← num 2 0 s;
  match s with
  | EmptyString => if valid_clock h mi sec then Some (h, mi, sec) else None
  | _ => None
  end.

(** The date part [YYYY-MM-DD]; what follows it is handed back. *)
Definition parse_date (s : string) : option (Z * Z * Z * string) :=
  '(y, s) ← num 4 0 s;
  s ← expect "-" s;
  '(m, s) ← num 2 0 s;
  s ← expect "-" s;
  '(d, s) ← num 2 0 s;
  if valid_date y m d then Some (y, m, d, s) else None.

(** The two ISO 8601 layouts the program meets: [YYYY-MM-DD] (the bounds
    of the renderer) and [YYYY-MM-DDTHH:MM:SS] (the [HourDK] field of the
    dataset; a blank may stand for the [T]). Any other string is
    rejected; pandas itself accepts further layouts. *)
Definition parse_iso (s : string) : option (Z * resolution) :=
  '(y, m, d, s) ← parse_date s;
  match s with
  | EmptyString => Some (timestamp_of y m d 0 0 0, ResDay)
  | String c s' =>
      if Ascii.eqb c "T" || Ascii.eqb c " " then
        '(h, mi, sec) ← parse_clock s';
        Some (timestamp_of y m d h mi sec, ResSecond)
      else None
  end.

(** The layout of the dataset's hour fields: nineteen characters,
    [dddd-dd-ddTdd:dd:dd], naming a date and a time of day that exist. *)
Definition hour_layout (s : string) : bool :=
  match parse_date s with
  | Some (_, _, _, String c s') =>
      Ascii.eqb c "T" && bool_decide (is_Some (parse_clock s'))
  | _ => false
  end.

(** Days before the March-based year [y], up to a constant. *)
Definition year_days (y : Z) : Z := 365 * y + y / 4 - y / 100 + y / 400.

(** Lexicographic combination of two comparisons. *)
Definition lexc (c1 c2 : comparison) : comparison :=
  match c1 with Eq => c2 | _ => c1 end.

End Time.

(** ** Python exceptions and results *)

(** The classes that decide which [except] clause catches an exception.
    Every subclass of [requests.exceptions.RequestException] is one class
    here, tagged with its name ([ConnectionError], [Timeout], [HTTPError],
    and, from requests 2.27 on, the [JSONDecodeError] that
    [Response.json] raises); [json.JSONDecodeError] of the standard
    library is a [ValueError]. *)
Inductive exn_class :=
  | RequestException (subclass : string)
  | KeyError
  | TypeError
  | ValueError
  | SystemError
  | Exception.

(** An exception: its class and [str(e)]; one raised while another was
    being handled keeps that one as its [__context__]. The texts of the
    exceptions that libraries raise are abbreviated. *)
Inductive exn :=
  | Exn (cls : exn_class) (msg : string)
  | ExnFrom (cls : exn_class) (msg : string) (context : exn).

Definition exn_cls (e : exn) : exn_class :=
  match e with Exn c _ | ExnFrom c _ _ => c end.
Definition str (e : exn) : string :=
  match e with Exn _ m | ExnFrom _ m _ => m end.
Definition exn_context (e : exn) : option exn :=
  match e with Exn _ _ => None | ExnFrom _ _ c => Some c end.

Definition is_RequestException (e : exn) : bool :=
  match exn_cls e with RequestException _ => true | _ => false end.

Inductive result (A : Type) :=
  | Ok (a : A)
  | Raise (e : exn).
Arguments Ok {A} a.
Arguments Raise {A} e.

#[global] Instance result_ret : MRet result := fun A a => Ok a.
#[global] Instance result_bind : MBind result := fun A B f m =>
  match m with Ok a => f a | Raise e => Raise e end.

(** [[f x for x in l]] where [f] may raise: the first failure wins. *)
Fixpoint for_each {A B} (f : A -> result B) (l : list A) : result (list B) :=
  match l with
  | [] => Ok []
  | x :: l' => y ← f x; ys ← for_each f l'; Ok (y :: ys)
  end.

(** ** Tables *)

(** A [DataFrame]: the row labels and the columns, each column a name and
    one cell per row. The tables of the program carry distinct column
    names; a lookup by name takes the first column of that name. *)
Record DataFrame (I C : Type) := mkFrame {
  index : list I;
  columns : list (string * list C)
}.
Arguments mkFrame {I C} index columns.
Arguments index {I C} d.
Arguments columns {I C} d.

Definition column_names {I C} (d : DataFrame I C) : list string :=
  (columns d).*1.

Fixpoint assoc {V} (k : string) (l : list (string * V)) : option V :=
  match l with
  | [] => None
  | (k', v) :: l' => if decide (k = k') then Some v else assoc k l'
  end.

(** [df[name]] *)
Definition getitem {I C} (d : DataFrame I C) (name : string) : result (list C) :=
  match assoc name (columns d) with
  | Some col => Ok col
  | None => Raise (Exn KeyError ("'" +:+ name +:+ "'"))
  end.

(** ** The loader *)

Module Loader.

(** A value of a flat JSON record. *)
Inductive jval := JNull | JNum (q : Q) | JStr (s : string).

Definition jobject := list (string * jval).

(** The decoded body: a JSON object; of its members only those holding an
    array of flat records matter to the program. *)
Abbreviation json_doc := (gmap string (list jobject)).

(** What [requests.get] hands back: the status line, and what
    [response.json()] does (returns the decoded body or raises). *)
Record response := mkResponse {
  status_code : Z;
  reason : string;
  json : result json_doc
}.

(** [requests.get]: for a URL, a response or the exception raised. *)
Definition network := string -> result response.

(** A cell of the table built from the records. *)
Inductive cell := NaN | Num (q : Q) | Str (s : string).

Definition cell_of (name : string) (r : jobject) : cell :=
  match assoc name r with
  | Some (JNum q) => Num q
  | Some (JStr s) => Str s
  | Some JNull | None => NaN
  end.

(** Names in order of first appearance. *)
Definition first_seen (l : list string) : list string :=
  reverse (remove_dups (reverse l)).

(** [pd.json_normalize(records)] on flat records: one row per record, one
    column per field name met, [NaN] where a record lacks the field or
    holds [null]. *)
Definition json_normalize (rs : list jobject) : DataFrame nat cell :=
  mkFrame (seq 0 (length rs))
          (map (fun name => (name, map (cell_of name) rs))
               (first_seen (concat (map (fun r => r.*1) rs)))).

(** [df.fillna(0, inplace=True)] *)
Definition fill (c : cell) : cell :=
  match c with NaN => Num 0 | _ => c end.

Definition fillna {I} (d : DataFrame I cell) : DataFrame I cell :=
  mkFrame (index d) (map (fun '(name, col) => (name, map fill col)) (columns d)).

(** [df.drop(labels, axis=1)]: every label must name a column. *)
Definition drop {I C} (labels : list string) (d : DataFrame I C)
  : result (DataFrame I C) :=
  match filter (fun l => l ∉ column_names d) labels with
  | [] => Ok (mkFrame (index d) (filter (fun nc => nc.1 ∉ labels) (columns d)))
  | missing :: _ =>
      Raise (Exn KeyError ("'" +:+ missing +:+ "' not found in axis"))
  end.

(** The group keys and the cells that are summed. A key that is not a
    string and a string among the summed cells are met with [TypeError]:
    what pandas does with them depends on its version, and the dataset
    holds neither. *)
Definition as_key (c : cell) : result string :=
  match c with
  | Str s => Ok s
  | _ => Raise (Exn TypeError "group key is not a string")
  end.

Definition as_number (c : cell) : result Q :=
  match c with
  | Num q => Ok q
  | _ => Raise (Exn TypeError "unsupported operand type(s) for +")
  end.

(** The sum of the cells of one column over the rows of one group,
    accumulated from zero in row order. *)
Fixpoint group_sum_from (acc : Q) (key : string) (keys : list string)
    (col : list Q) : Q :=
  match keys, col with
  | k :: keys', q :: col' =>
      group_sum_from (if decide (k = key) then (acc + q)%Q else acc) key keys' col'
  | _, _ => acc
  end.

Definition group_sum : string -> list string -> list Q -> Q :=
  group_sum_from 0%Q.

(** [df.groupby(by).sum()]: one row per distinct key, the keys sorted, the
    key column leaving the columns for the index. *)
Definition groupby_sum {I} (by_ : string) (d : DataFrame I cell)
  : result (DataFrame string Q) :=
  key_cells ← getitem d by_;
  keys ← for_each as_key key_cells;
  let groups := merge_sort String.le (remove_dups keys) in
  cols ← for_each
    (fun '(name, col) =>
       qs ← for_each as_number col;
       Ok (name, map (fun g => group_sum g keys qs) groups))
    (filter (fun nc => nc.1 ≠ by_) (columns d));
  Ok (mkFrame groups cols).

(** [pd.to_datetime] on an index of strings. *)
Definition to_datetime_label (s : string) : result Z :=
  match Time.parse_iso s with
  | Some (t, _) => Ok t
  | None => Raise (Exn ValueError ("time data '" +:+ s +:+ "' is not understood"))
  end.

(** Lines 35 to 46: from the decoded body to the table. *)
Definition process (data : json_doc) : result (DataFrame Z Q) :=
  records ← match data !! "records" with
            | Some rs => Ok rs
            | None => Raise (Exn KeyError "'records'")
            end;
  let df := json_normalize records in
  let df := fillna df in
  dropped ← drop ["HourUTC"; "PriceArea"] df;
  summed_df ← groupby_sum "HourDK" dropped;
  new_index ← for_each to_datetime_label (index summed_df);
  Ok (mkFrame new_index (columns summed_df)).

(** [response.raise_for_status()]: client and server errors raise. *)
Definition raise_for_status (url : string) (r : response) : result unit :=
  if (400 <=? status_code r)%Z && (status_code r <? 500)%Z then
    Raise (Exn (RequestException "HTTPError")
               (pretty (status_code r) +:+ " Client Error: " +:+ reason r
                +:+ " for url: " +:+ url))
  else if (500 <=? status_code r)%Z && (status_code r <? 600)%Z then
    Raise (Exn (RequestException "HTTPError")
               (pretty (status_code r) +:+ " Server Error: " +:+ reason r
                +:+ " for url: " +:+ url))
  else Ok ().

Definition api_url (start_date end_date : string) : string :=
  "https://api.energidataservice.dk/dataset/ElectricityBalanceNonv?start="
  +:+ start_date +:+ "&end=" +:+ end_date +:+ "&sort=HourUTC".

(** The two wrappers of lines 50 and 52; the specification calls them
    [FetchError] and [ProcessingError]. *)
Definition FetchError (e : exn) : exn :=
  ExnFrom Exception ("Error fetching data from API: " +:+ str e) e.

Definition ProcessingError (e : exn) : exn :=
  ExnFrom Exception ("Error processing data: " +:+ str e) e.

Definition load_power_data (get : network) (start_date end_date : string)
  : result (DataFrame Z Q) :=
  let url := api_url start_date end_date in
  let body :=
    response ← get url;
    _ ← raise_for_status url response;
    data ← json response;
    process data in
  match body with
  | Ok summed_df => Ok summed_df
  | Raise e =>
      if is_RequestException e then Raise (FetchError e)
      else Raise (ProcessingError e)
  end.

(** *** The aggregation, said on the records *)

(** The [HourDK] string of a record, and the number a record holds for a
    field, a missing or null field counting as zero. *)
Definition hour_of (r : jobject) : option string :=
  match assoc "HourDK" r with Some (JStr s) => Some s | _ => None end.

Definition field_value (name : string) (r : jobject) : Q :=
  match assoc name r with Some (JNum q) => q | _ => 0%Q end.

(** The total of a field over the records of one local hour, whatever
    their price area. *)
Definition group_total (rs : list jobject) (hour : string) (name : string) : Q :=
  foldl Qplus 0%Q
        (map (field_value name)
             (filter (fun r => hour_of r = Some hour) rs)).

(** The distinct local hours of the records, ascending. *)
Definition hours_of (rs : list jobject) : list string :=
  merge_sort String.le (remove_dups (omap hour_of rs)).

(** The columns of the result: the fields met in the records, but for the
    two that are dropped and the one that becomes the index. *)
Definition key_fields : list string := ["HourUTC"; "PriceArea"; "HourDK"].

Definition measure_names (rs : list jobject) : list string :=
  filter (fun n => n ∉ key_fields)
         (first_seen (concat (map (fun r => r.*1) rs))).

(** A record with every [null] written as [0]. *)
Definition zero_for_null (v : jval) : jval :=
  match v with JNull => JNum 0 | JNum q => JNum q | JStr s => JStr s end.

Definition null_to_zero (r : jobject) : jobject :=
  map (fun kv => (kv.1, zero_for_null kv.2)) r.

(** The cell of a record under a column once the table is filled. *)
Definition filled (name : string) (r : jobject) : cell := fill (cell_of name r).

(** The records a call receives, when the exchange gets as far as the
    decoded body. *)
Definition received (get : network) (start_date end_date : string)
  : option (list jobject) :=
  match get (api_url start_date end_date) with
  | Ok response =>
      match json response with
      | Ok data => data !! "records"
      | Raise _ => None
      end
  | Raise _ => None
  end.

(** The sum of a column, accumulated from zero in row order. *)
Definition total (col : list Q) : Q := foldl Qplus 0%Q col.

(** *** Sample exchanges *)

(** Two price areas at one local hour, holding 10 and 20 for a field. *)
Definition two_areas : list jobject :=
  [ [("HourUTC", JStr "2022-03-01T12:00:00"); ("HourDK", JStr "2022-03-01T13:00:00");
     ("PriceArea", JStr "DK1"); ("SolarPower", JNum 10)];
    [("HourUTC", JStr "2022-03-01T12:00:00"); ("HourDK", JStr "2022-03-01T13:00:00");
     ("PriceArea", JStr "DK2"); ("SolarPower", JNum 20)] ].

(** Two hours, the later one first, with a [null] and a missing field. *)
Definition two_hours : list jobject :=
  [ [("HourUTC", JStr "2022-03-01T12:00:00"); ("HourDK", JStr "2022-03-01T13:00:00");
     ("PriceArea", JStr "DK1"); ("SolarPower", JNum 10); ("TotalLoad", JNull)];
    [("HourUTC", JStr "2022-03-01T11:00:00"); ("HourDK", JStr "2022-03-01T12:00:00");
     ("PriceArea", JStr "DK1"); ("SolarPower", JNum 7)];
    [("HourUTC", JStr "2022-03-01T12:00:00"); ("HourDK", JStr "2022-03-01T13:00:00");
     ("PriceArea", JStr "DK2"); ("SolarPower", JNum 20); ("TotalLoad", JNum 5)] ].

(** An exchange that answers every request alike. *)
Definition answering (status : Z) (reason_ : string) (body : result json_doc)
  : network :=
  fun _ => Ok (mkResponse status reason_ body).

Definition serving (rs : list jobject) : network :=
  answering 200 "OK" (Ok {[ "records" := rs ]}).

End Loader.

(** ** The renderer *)

Module Plot.

Abbreviation frame := (DataFrame Z Q).

(** *** What is handed to matplotlib *)

(** A legend label: the name, and the factor of the annotation
    [f"{base} (×{factor})"] when the series was scaled. *)
Inductive label := Label (base : string) (factor : option Q).

(** A scalar result of [pd.to_datetime]. *)
Inductive dt := PyNone | NaT | Timestamp (ns : Z).

Inductive linestyle := Solid | Dashed.

(** The calls made to [plt] and to the axes, with the arguments the
    program computes; constant styling arguments are left out. The
    sequences passed are recorded as they are at the call: matplotlib
    builds its artists from them then. *)
Inductive call :=
  | rc_font (family : string)
  | figure (width height : Z)
  | fill_between (x : list Z) (y1 y2 : list Q) (color : string) (lab : label)
  | plot (x : list Z) (y : list Q) (style : linestyle) (lab : option label)
  | title (s : string)
  | xlabel (s : string)
  | ylabel (s : string)
  | grid
  | legend
  | xticks (rotation : Z)
  | tick_params
  | xlim (left right : dt)
  | ylim (bottom : Q) (top : option Q)
  | set_major_locator (minticks maxticks : Z)
  | set_major_formatter (date_format : string)
  | autofmt_xdate
  | tight_layout.

(** *** The store and the monad of the function body *)

(** Tables are objects: a variable holds a reference, [df.copy()] and
    slicing make new objects, [df[tech] = ...] updates one in place. *)
Record world := mkWorld {
  heap : gmap nat frame;
  canvas : list call
}.

Definition M (A : Type) : Type := world -> result A * world.

#[global] Instance M_ret : MRet M := fun A a w => (Ok a, w).
#[global] Instance M_bind : MBind M := fun A B f m w =>
  match m w with
  | (Ok a, w') => f a w'
  | (Raise e, w') => (Raise e, w')
  end.

Definition lift {A} (r : result A) : M A := fun w => (r, w).
Definition raise {A} (e : exn) : M A := fun w => (Raise e, w).

Definition emit (c : call) : M unit := fun w =>
  (Ok (), mkWorld (heap w) (canvas w ++ [c])).

Definition deref (l : nat) : M frame := fun w =>
  match heap w !! l with
  | Some d => (Ok d, w)
  | None => (Raise (Exn SystemError "dangling reference"), w)
  end.

Definition alloc (d : frame) : M nat := fun w =>
  let l := fresh (dom (heap w)) in
  (Ok l, mkWorld (<[l := d]> (heap w)) (canvas w)).

Definition store (l : nat) (d : frame) : M unit := fun w =>
  (Ok (), mkWorld (<[l := d]> (heap w)) (canvas w)).

(** *** The two fixed dictionaries and [scale_factors] *)

Definition colors : list (string * string) :=
  [("SolarPower", "#FDB813"); ("OnshoreWindPower", "#00A0DC");
   ("OffshoreWindPower", "#2E8B57"); ("FossilGas", "#FF7F50");
   ("FossilHardCoal", "#808080"); ("Biomass", "#90EE90");
   ("FossilOil", "#8B4513"); ("Waste", "darkred")].

Definition danish_names : list (string * string) :=
  [("OnshoreWindPower", "Landvind"); ("OffshoreWindPower", "Havvind");
   ("SolarPower", "Sol"); ("Biomass", "Biomasse"); ("FossilHardCoal", "Kul");
   ("FossilGas", "Gas"); ("FossilOil", "Olie"); ("Waste", "Affald")].

(** [d.get(k, default)] *)
Definition get {V} (d : list (string * V)) (k : string) (default : V) : V :=
  match assoc k d with Some v => v | None => default end.

(** A [dict] from column names to factors, in insertion order. *)
Abbreviation dict := (list (string * Q)).

(** Truth value of the optional mapping: [None] and the empty [dict] are
    false. *)
Definition truthy_dict (sf : option dict) : bool :=
  match sf with Some (_ :: _) => true | _ => false end.

(** [key in scale_factors]: [None] supports no membership test. *)
Definition contains (sf : option dict) (key : string) : M bool :=
  match sf with
  | Some d => mret (bool_decide (is_Some (assoc key d)))
  | None => raise (Exn TypeError "argument of type 'NoneType' is not iterable")
  end.

(** [scale_factors and column in scale_factors], then the label. *)
Definition series_label (sf : option dict) (base : string) (column : string)
  : label :=
  match (if truthy_dict sf then sf ≫= assoc column else None) with
  | Some factor => Label base (Some factor)
  | None => Label base None
  end.

(** *** Operations on tables *)

Definition has_column (d : frame) (name : string) : bool :=
  bool_decide (name ∈ column_names d).

(** [df[name] = col]: replaces the column, or appends a new one. *)
Definition setitem (d : frame) (name : string) (col : list Q) : frame :=
  if has_column d name then
    mkFrame (index d)
            (map (fun nc => if decide (nc.1 = name) then (name, col) else nc)
                 (columns d))
  else mkFrame (index d) (columns d ++ [(name, col)]).

(** [df[names]]: the listed columns, in the order listed. *)
Definition select (d : frame) (names : list string) : result frame :=
  cols ← for_each (fun name => col ← getitem d name; Ok (name, col)) names;
  Ok (mkFrame (index d) cols).

Fixpoint keep_rows {A} (mask : list bool) (l : list A) : list A :=
  match mask, l with
  | b :: mask', x :: l' => if b then x :: keep_rows mask' l' else keep_rows mask' l'
  | _, _ => []
  end.

Definition where_index (keep : Z -> bool) (d : frame) : frame :=
  let mask := map keep (index d) in
  mkFrame (keep_rows mask (index d))
          (map (fun nc => (nc.1, keep_rows mask nc.2)) (columns d)).

Definition is_monotonic_increasing (l : list Z) : bool :=
  bool_decide (Sorted Z.le l).

(** A bound of a slice by a date string: the string is cast to the first
    (for [df[start:]]) or to the last (for [df[:end]]) instant of the
    period it names. On an index that is not increasing the bound must be
    one of its labels. A string that [Time.parse_iso] rejects is refused,
    though pandas reads further layouts. *)
Definition cast_slice_bound (s : string) (upper : bool) : result Z :=
  match Time.parse_iso s with
  | Some (t, r) => Ok (if upper then t + Time.resolution_ns r - 1 else t)%Z
  | None =>
      Raise (Exn TypeError "cannot do slice indexing on DatetimeIndex")
  end.

Definition check_bound (d : frame) (bound : Z) : result unit :=
  if is_monotonic_increasing (index d) || bool_decide (bound ∈ index d)
  then Ok ()
  else Raise (Exn KeyError "partial slicing on non-monotonic DatetimeIndex").

(** [df[start:]] *)
Definition slice_from (d : frame) (start : string) : result frame :=
  bound ← cast_slice_bound start false;
  _ ← check_bound d bound;
  Ok (where_index (fun t => bound <=? t)%Z d).

(** [df[:end]] *)
Definition slice_to (d : frame) (end_ : string) : result frame :=
  bound ← cast_slice_bound end_ true;
  _ ← check_bound d bound;
  Ok (where_index (fun t => t <=? bound)%Z d).

(** [np.zeros(n)], and [+] on sequences of one length. *)
Definition zeros (n : nat) : list Q := replicate n 0%Q.
Definition vadd (a b : list Q) : list Q := zip_with Qplus a b.

(** [df.sum(axis=1)] and [.max()], the latter [NaN] ([None]) on no rows. *)
Definition row_sums (d : frame) : list Q :=
  foldl vadd (zeros (length (index d))) (columns d).*2.

Definition series_max (l : list Q) : option Q :=
  match l with
  | [] => None
  | x :: l' => Some (foldl Qmax x l')
  end.

(** [index.max()] and [index.min()], [NaT] ([None]) on an empty index. *)
Definition index_max (l : list Z) : option Z :=
  match l with [] => None | t :: l' => Some (foldl Z.max t l') end.

Definition index_min (l : list Z) : option Z :=
  match l with [] => None | t :: l' => Some (foldl Z.min t l') end.

(** [pd.to_datetime] on a scalar: [None] is handed back as it is, the
    empty string is not-a-time. *)
Definition to_datetime (arg : option string) : result dt :=
  match arg with
  | None => Ok PyNone
  | Some EmptyString => Ok NaT
  | Some s =>
      match Time.parse_iso s with
      | Some (t, _) => Ok (Timestamp t)
      | None => Raise (Exn ValueError ("time data '" +:+ s +:+ "' is not understood"))
      end
  end.

(** [timedelta(days=n)] in nanoseconds, and [<=] on a span that may be
    [NaT]: a comparison with [NaT] is false. *)
Definition timedelta (days : Z) : Z := (days * Time.NS_PER_DAY)%Z.

Definition span_le (time_span : option Z) (bound : Z) : bool :=
  match time_span with
  | Some x => (x <=? bound)%Z
  | None => false
  end.

(** Lines 177 to 184. *)
Definition date_format_of (time_span : option Z) : string :=
  if span_le time_span (timedelta 1) then "%H:%M"
  else if span_le time_span (timedelta 14) then "%d-%m %H:%M"
  else if span_le time_span (timedelta 365) then "%d-%m-%Y"
  else "%Y-%m".

(** *** [plot_power_system] *)

(** Lines 112 to 114: the loop over [scale_factors.items()]. *)
Fixpoint scale_columns (df : nat) (items : dict) : M unit :=
  match items with
  | [] => mret ()
  | (tech, factor) :: items' =>
      d ← deref df;
      (if has_column d tech then
         col ← lift (getitem d tech);
         store df (setitem d tech (map (fun x => x * factor)%Q col))
       else mret ());;
      scale_columns df items'
  end.

(** Lines 128 to 139: one band per column over the running baseline
    [y_stack], which the loop hands on increased. *)
Fixpoint stack_columns (df : nat) (scale_factors : option dict)
    (names : list string) (y_stack : list Q) : M (list Q) :=
  match names with
  | [] => mret y_stack
  | column :: names' =>
      d ← deref df;
      let base_label := get danish_names column column in
      let label := series_label scale_factors base_label column in
      let color := get colors column "#CCCCCC" in
      col ← lift (getitem d column);
      emit (fill_between (index d) y_stack (vadd y_stack col) color label);;
      emit (plot (index d) (vadd y_stack col) Solid None);;
      stack_columns df scale_factors names' (vadd y_stack col)
  end.

Definition time_span (d : frame) : option Z :=
  hi ← index_max (index d); lo ← index_min (index d); Some (hi - lo)%Z.

(** Lines 110 to 120: the private copy, scaled and cut to the range; the
    result is the reference [df] holds from there on. *)
Definition prepare (df : nat) (scale_factors : option dict)
    (start end_ : option string) : M nat :=
  (* 110: df = df.copy() *)
  df ← (d ← deref df; alloc d);
  (* 111 *)
  match scale_factors with
  | Some ((_ :: _) as items) => scale_columns df items
  | _ => mret ()
  end;;
  (* 117: df = df[start:] *)
  df ← match start with
       | Some ((String _ _) as s) =>
           d ← deref df; d' ← lift (slice_from d s); alloc d'
       | _ => mret df
       end;
  (* 119: df = df[:end] *)
  match end_ with
  | Some ((String _ _) as s) =>
      d ← deref df; d' ← lift (slice_to d s); alloc d'
  | _ => mret df
  end.

(** Lines 125 to 139. *)
Definition draw_stack (df : nat) (columns_to_plot : list string)
    (scale_factors : option dict) : M unit :=
  d ← deref df;
  let y_stack := zeros (length (index d)) in
  selected ← lift (select d columns_to_plot);
  _ ← stack_columns df scale_factors (column_names selected) y_stack;
  mret ().

(** Lines 143 to 147: the two tests of the load overlay. *)
Definition draw_load (df : nat) (scale_factors : option dict)
    (plot_load : bool) : M unit :=
  (* 143 *)
  unscaled ← (if plot_load
              then found ← contains scale_factors "TotalLoad"; mret (negb found)
              else mret false);
  (if unscaled : bool then
     d ← deref df;
     load ← lift (getitem d "TotalLoad");
     emit (plot (index d) load Dashed (Some (Label "Forbrug" None)))
   else mret ());;
  (* 145 *)
  scaled ← (if plot_load then contains scale_factors "TotalLoad" else mret false);
  (if scaled : bool then
     let load_label := Label "Forbrug" (scale_factors ≫= assoc "TotalLoad") in
     d ← deref df;
     load ← lift (getitem d "TotalLoad");
     emit (plot (index d) load Dashed (Some load_label))
   else mret ()).

(** Lines 151 to 190: texts, limits and the date format of the axis. *)
Definition finish (df : nat) (columns_to_plot : list string)
    (start end_ : option string) (title_ : string) : M unit :=
  emit (title title_);;
  emit (xlabel "Dato");;
  emit (ylabel "Effekt (MW)");;
  emit grid;;
  emit legend;;
  emit (xticks 45);;
  emit tick_params;;
  (* 160 *)
  left ← lift (to_datetime start);
  right ← lift (to_datetime end_);
  emit (xlim left right);;
  (* 163 *)
  d ← deref df;
  selected ← lift (select d columns_to_plot);
  let y_max := series_max (row_sums selected) in
  emit (ylim 0 ((fun m => m * (105 # 100))%Q <$> y_max));;
  (* 169 *)
  let time_span := time_span d in
  emit (set_major_locator 7 8);;
  let date_format := date_format_of time_span in
  emit (set_major_formatter date_format);;
  emit autofmt_xdate;;
  emit tight_layout.

Definition plot_power_system (df : nat) (columns_to_plot : list string)
    (scale_factors : option dict) (start end_ : option string)
    (title_ : string) (plot_load : bool) : M unit :=
  emit (rc_font "Helvetica Neue");;
  df ← prepare df scale_factors start end_;
  emit (figure 12 6);;
  draw_stack df columns_to_plot scale_factors;;
  draw_load df scale_factors plot_load;;
  finish df columns_to_plot start end_ title_.

(** *** The table that is drawn, said without the store *)

Definition scale_one (d : frame) (item : string * Q) : frame :=
  match assoc item.1 (columns d) with
  | Some col => setitem d item.1 (map (fun x => x * item.2)%Q col)
  | None => d
  end.

Definition scaled (sf : option dict) (d : frame) : frame :=
  foldl scale_one d (default [] sf).

(** The table held by [df] at line 121. *)
Definition prepared (d : frame) (sf : option dict) (start end_ : option string)
  : result frame :=
  d ← match start with
      | Some ((String _ _) as s) => slice_from (scaled sf d) s
      | _ => Ok (scaled sf d)
      end;
  match end_ with
  | Some ((String _ _) as s) => slice_to d s
  | _ => Ok d
  end.

(** The values of the listed columns, and the baseline under the band
    of position [i]: the row-wise sum of the columns before it. *)
Definition values (d : frame) (names : list string) : list (list Q) :=
  omap (fun name => assoc name (columns d)) names.

Definition baseline (d : frame) (names : list string) (i : nat) : list Q :=
  foldl vadd (zeros (length (index d))) (values d (take i names)).

(** The calls of the stacking loop when every listed column exists. *)
Fixpoint bands (d : frame) (sf : option dict) (names : list string)
    (y_stack : list Q) : list call :=
  match names with
  | [] => []
  | column :: names' =>
      match assoc column (columns d) with
      | Some col =>
          fill_between (index d) y_stack (vadd y_stack col)
                       (get colors column "#CCCCCC")
                       (series_label sf (get danish_names column column) column)
          :: plot (index d) (vadd y_stack col) Solid None
          :: bands d sf names' (vadd y_stack col)
      | None => []
      end
  end.

(** The texts and axis calls of a completed [finish]. *)
Definition finish_calls (d : frame) (columns_to_plot : list string)
    (left right : dt) (title_ : string) : list call :=
  [title title_; xlabel "Dato"; ylabel "Effekt (MW)"; grid; legend; xticks 45;
   tick_params; xlim left right;
   ylim 0 ((fun m => m * (105 # 100))%Q
           <$> series_max (foldl vadd (zeros (length (index d)))
                                 (values d columns_to_plot)));
   set_major_locator 7 8; set_major_formatter (date_format_of (time_span d));
   autofmt_xdate; tight_layout].

(** What holds of the outcome and of the world after running [m]. *)
Definition post {A} (m : M A) (w : world) (Q : result A -> world -> Prop)
  : Prop :=
  Q (m w).1 (m w).2.

Definition is_plot (c : call) : bool :=
  match c with plot _ _ _ _ => true | _ => false end.

Definition is_fill (c : call) : bool :=
  match c with fill_between _ _ _ _ _ => true | _ => false end.

Definition is_formatter (c : call) : bool :=
  match c with set_major_formatter _ => true | _ => false end.

Definition is_xlim (c : call) : bool :=
  match c with xlim _ _ => true | _ => false end.

(** *** The whole call, said without the store *)

(** A table whose columns all have one cell per row. *)
Definition well_formed {I C} (d : DataFrame I C) : Prop :=
  Forall (fun nc => length nc.2 = length (index d)) (columns d).

(** The outcome of lines 143 to 147 on the table that is drawn: the
    dashed line of the load, or the exception raised before any drawing. *)
Definition overlay (d : frame) (sf : option dict) (plot_load : bool)
  : result (list call) :=
  if plot_load then
    match sf with
    | None => Raise (Exn TypeError "argument of type 'NoneType' is not iterable")
    | Some items =>
        match assoc "TotalLoad" (columns d) with
        | Some load =>
            Ok [plot (index d) load Dashed
                  (Some (Label "Forbrug" (assoc "TotalLoad" items)))]
        | None => Raise (Exn KeyError "'TotalLoad'")
        end
    end
  else Ok [].

(** The outcome of a call on the table [d] and the calls it adds to the
    canvas, up to the statement that raises. *)
Definition render (d : frame) (names : list string) (sf : option dict)
    (start end_ : option string) (title_ : string) (plot_load : bool)
  : result unit * list call :=
  match prepared d sf start end_ with
  | Raise e => (Raise e, [rc_font "Helvetica Neue"])
  | Ok d' =>
      let head := [rc_font "Helvetica Neue"; figure 12 6] in
      match select d' names with
      | Raise e => (Raise e, head)
      | Ok _ =>
          let stack := head ++ bands d' sf names (zeros (length (index d'))) in
          match overlay d' sf plot_load with
          | Raise e => (Raise e, stack)
          | Ok loads =>
              let texts := [title title_; xlabel "Dato"; ylabel "Effekt (MW)";
                            grid; legend; xticks 45; tick_params] in
              match to_datetime start, to_datetime end_ with
              | Ok lo, Ok hi =>
                  (Ok (), stack ++ loads ++ finish_calls d' names lo hi title_)
              | Raise e, _ | Ok _, Raise e => (Raise e, stack ++ loads ++ texts)
              end
          end
      end
  end.

(** A column under its factor, if it has one. *)
Definition scale_by (factor : option Q) (col : list Q) : list Q :=
  match factor with
  | Some f => map (fun x => x * f)%Q col
  | None => col
  end.

(** [x] is [y] with the columns named in [items] multiplied by their
    factors: the same rows, the same column names. *)
Definition scaled_from (items : dict) (x y : frame) : Prop :=
  index x = index y
  /\ column_names x = column_names y
  /\ forall n, assoc n (columns x)
              = scale_by (assoc n items) <$> assoc n (columns y).

Definition is_ylim (c : call) : bool :=
  match c with ylim _ _ => true | _ => false end.

(** The dashed line of the load overlay. *)
Definition is_dashed (c : call) : bool :=
  match c with plot _ _ Dashed _ => true | _ => false end.

(** A call whose sequences all have [n] entries. *)
Definition aligned (n : nat) (c : call) : Prop :=
  match c with
  | fill_between x y1 y2 _ _ => length x = n /\ length y1 = n /\ length y2 = n
  | plot x y _ _ => length x = n /\ length y = n
  | _ => True
  end.

(** *** Sample calls *)

(** A table of two rows, [span] nanoseconds apart, with the columns [A]
    and [B] holding 3 and 4 in the first row. *)
Definition sample_table (span : Z) : frame :=
  mkFrame [1646136000000000000%Z; (1646136000000000000 + span)%Z]
          [("A", [3%Q; 1%Q]); ("B", [4%Q; 2%Q]); ("TotalLoad", [9%Q; 8%Q])].

Definition HOUR : Z := (3600 * Time.NS_PER_SECOND)%Z.

(** The caller's store: the table at reference 0, nothing drawn yet. *)
Definition sample_world (span : Z) : world :=
  mkWorld {[ 0%nat := sample_table span ]} [].

End Plot.

(** * Properties *)

(** ** The calendar and the order of hour strings *)

Module TimeFacts.
Import Time.
Local Open Scope Z_scope.

Lemma days_from_civil_shifted y m d :
  days_from_civil y m d
  = year_days (if m <=? 2 then y - 1 else y)
    + (153 * (if m <=? 2 then m + 9 else m - 3) + 2) / 5 + d - 719469.
Proof.
  unfold days_from_civil, year_days.
  set (y' := if m <=? 2 then y - 1 else y).
  set (mp := if m <=? 2 then m + 9 else m - 3).
  generalize ((153 * mp + 2) / 5). intros k.
  (Z.div_mod_to_equations; lia).
Qed.

Lemma year_days_step y :
  year_days (y + 1) = year_days y + (if is_leap (y + 1) then 366 else 365).
Proof.
  unfold year_days, is_leap.
  destruct ((y + 1) mod 4 =? 0) eqn:E4; destruct ((y + 1) mod 100 =? 0) eqn:E100;
  destruct ((y + 1) mod 400 =? 0) eqn:E400; simpl;
  rewrite ?Z.eqb_eq, ?Z.eqb_neq in *;
  (Z.div_mod_to_equations; lia).
Qed.

Lemma year_days_mono a b : a <= b -> year_days a <= year_days b.
Proof.
  unfold year_days. intros. (Z.div_mod_to_equations; lia).
Qed.

Lemma valid_date_spec y m d :
  valid_date y m d = true ->
  1 <= m <= 12 /\ 1 <= d <= days_in_month y m.
Proof. unfold valid_date. rewrite !andb_true_iff, !Z.leb_le. lia. Qed.

(** Day of the March-based year: bounded by the length of that year. *)
Lemma day_of_year_bound y m d :
  valid_date y m d = true ->
  let y' := if m <=? 2 then y - 1 else y in
  let mp := if m <=? 2 then m + 9 else m - 3 in
  0 <= (153 * mp + 2) / 5 + d - 1 < (if is_leap (y' + 1) then 366 else 365).
Proof.
  intros Hv. apply valid_date_spec in Hv as [Hm Hd].
  assert (m = 1 \/ m = 2 \/ m = 3 \/ m = 4 \/ m = 5 \/ m = 6 \/ m = 7 \/ m = 8
          \/ m = 9 \/ m = 10 \/ m = 11 \/ m = 12) as Hcase by lia.
  unfold days_in_month in Hd.
  repeat destruct Hcase as [-> | Hcase]; try subst m; cbn in Hd |- *;
    try replace (y - 1 + 1) with y by lia;
    destruct (is_leap _); try destruct (is_leap _);
    (Z.div_mod_to_equations; lia).
Qed.

Lemma month_start_lt y1 m1 d1 y2 m2 d2 :
  valid_date y1 m1 d1 = true -> valid_date y2 m2 d2 = true ->
  (if m1 <=? 2 then m1 + 9 else m1 - 3) < (if m2 <=? 2 then m2 + 9 else m2 - 3) ->
  (153 * (if m1 <=? 2 then m1 + 9 else m1 - 3) + 2) / 5 + d1
  < (153 * (if m2 <=? 2 then m2 + 9 else m2 - 3) + 2) / 5 + d2.
Proof.
  intros [Hm1 Hd1]%valid_date_spec [Hm2 Hd2]%valid_date_spec.
  assert (m1 = 1 \/ m1 = 2 \/ m1 = 3 \/ m1 = 4 \/ m1 = 5 \/ m1 = 6 \/ m1 = 7 \/ m1 = 8
          \/ m1 = 9 \/ m1 = 10 \/ m1 = 11 \/ m1 = 12) as Hcase by lia.
  unfold days_in_month in Hd1. destruct Hd2 as [Hd2 _].
  destruct (Z.leb_spec m1 2), (Z.leb_spec m2 2); intros Hlt;
    repeat destruct Hcase as [-> | Hcase]; try subst m1; try lia;
    cbn in Hd1; try destruct (is_leap _); (Z.div_mod_to_equations; lia).
Qed.

Lemma shifted_year_lt Y1 Y2 a1 a2 :
  0 <= a1 < (if is_leap (Y1 + 1) then 366 else 365) -> 0 <= a2 -> Y1 < Y2 ->
  year_days Y1 + a1 < year_days Y2 + a2.
Proof.
  intros Ha1 Ha2 Hlt.
  pose proof (year_days_mono (Y1 + 1) Y2 ltac:(lia)) as Hmono.
  rewrite year_days_step in Hmono.
  destruct (is_leap (Y1 + 1)); lia.
Qed.

Lemma days_from_civil_lt y1 m1 d1 y2 m2 d2 :
  valid_date y1 m1 d1 = true -> valid_date y2 m2 d2 = true ->
  (y1 < y2 \/ y1 = y2 /\ (m1 < m2 \/ m1 = m2 /\ d1 < d2)) ->
  days_from_civil y1 m1 d1 < days_from_civil y2 m2 d2.
Proof.
  intros Hv1 Hv2 Hlex.
  rewrite !days_from_civil_shifted.
  pose proof (day_of_year_bound _ _ _ Hv1) as Hb1.
  pose proof (day_of_year_bound _ _ _ Hv2) as Hb2.
  pose proof (valid_date_spec _ _ _ Hv1) as [Hm1 _].
  pose proof (valid_date_spec _ _ _ Hv2) as [Hm2 _].
  cbv zeta in Hb1, Hb2.
  set (Y1 := if m1 <=? 2 then y1 - 1 else y1) in *.
  set (Y2 := if m2 <=? 2 then y2 - 1 else y2) in *.
  destruct (Z.lt_trichotomy Y1 Y2) as [Hlt | [Heq | Hgt]].
  - pose proof (shifted_year_lt Y1 Y2 _ _ Hb1 (proj1 Hb2) Hlt) as H.
    revert H. clear. generalize (year_days Y1) (year_days Y2).
    do 2 match goal with |- context [(?a `div` 5)%Z] => generalize (a `div` 5)%Z end.
    intros. lia.
  - rewrite Heq.
    assert (y1 < y2 /\ 2 < m1 /\ m2 <= 2 \/ y1 = y2) as Hy.
    { subst Y1 Y2. destruct (Z.leb_spec m1 2), (Z.leb_spec m2 2); lia. }
    assert ((if m1 <=? 2 then m1 + 9 else m1 - 3)
            < (if m2 <=? 2 then m2 + 9 else m2 - 3) \/ m1 = m2 /\ d1 < d2) as Hmp.
    { clear Hb1 Hb2. destruct (Z.leb_spec m1 2), (Z.leb_spec m2 2); subst Y1 Y2; lia. }
    destruct Hmp as [Hmp | [-> Hd]].
    + pose proof (month_start_lt _ _ _ _ _ _ Hv1 Hv2 Hmp) as H.
      revert H. clear. generalize (year_days Y2).
      do 2 match goal with |- context [(?a `div` 5)%Z] => generalize (a `div` 5)%Z end.
      intros. lia.
    + revert Hd. clear. generalize (year_days Y2).
      match goal with |- context [(?a `div` 5)%Z] => generalize (a `div` 5)%Z end.
      intros. lia.
  - exfalso. subst Y1 Y2.
    destruct (Z.leb_spec m1 2), (Z.leb_spec m2 2); lia.
Qed.

Example parse_iso_epoch : parse_iso "1970-01-01" = Some (0, ResDay).
Proof. vm_compute. reflexivity. Qed.

Example parse_iso_hour :
  parse_iso "2022-03-01T13:00:00" = Some (1646139600000000000, ResSecond).
Proof. vm_compute. reflexivity. Qed.

Example parse_iso_no_such_day : parse_iso "2022-02-30" = None.
Proof. vm_compute. reflexivity. Qed.

(** *** The string order of parsed fields *)


Lemma digit_range c d : digit c = Some d -> 0 <= d <= 9.
Proof.
  unfold digit. destruct (_ && _) eqn:E; [|discriminate].
  intros [= <-]. apply andb_true_iff in E as [?%Z.leb_le ?%Z.leb_le]. lia.
Qed.

Lemma digit_compare c1 c2 d1 d2 :
  digit c1 = Some d1 -> digit c2 = Some d2 ->
  Ascii.compare c1 c2 = (d1 ?= d2).
Proof.
  unfold digit, Ascii.compare.
  destruct (_ && _); [|discriminate]. intros [= <-].
  destruct (_ && _); [|discriminate]. intros [= <-].
  rewrite <- N2Z.inj_compare.
  destruct (Z.compare_spec (Z.of_N (N_of_ascii c1)) (Z.of_N (N_of_ascii c2)));
    symmetry; [apply Z.compare_eq_iff | apply Z.compare_lt_iff | apply Z.compare_gt_iff]; lia.
Qed.

Lemma num_nonneg n : forall a s v r, num n a s = Some (v, r) -> 0 <= a -> 0 <= v.
Proof.
  induction n as [|n IH]; intros a s v r H Ha; simpl in H.
  - by inversion H; subst.
  - destruct s as [|c s]; [discriminate|].
    destruct (digit c) as [d|] eqn:Hd; [|discriminate].
    apply digit_range in Hd. eapply IH; [exact H | lia].
Qed.

Lemma num_compare n : forall a1 a2 s1 s2 v1 r1 v2 r2,
  num n a1 s1 = Some (v1, r1) -> num n a2 s2 = Some (v2, r2) ->
  lexc (a1 ?= a2) (String.compare s1 s2) = lexc (v1 ?= v2) (String.compare r1 r2).
Proof.
  induction n as [|n IH]; intros a1 a2 s1 s2 v1 r1 v2 r2 H1 H2; simpl in H1, H2.
  - by simplify_eq.
  - destruct s1 as [|c1 s1]; [discriminate|]. destruct s2 as [|c2 s2]; [discriminate|].
    destruct (digit c1) as [d1|] eqn:Hd1; [|discriminate].
    destruct (digit c2) as [d2|] eqn:Hd2; [|discriminate].
    rewrite <- (IH _ _ _ _ _ _ _ _ H1 H2). simpl.
    rewrite (digit_compare _ _ _ _ Hd1 Hd2).
    apply digit_range in Hd1, Hd2.
    destruct (Z.compare_spec a1 a2), (Z.compare_spec d1 d2),
      (Z.compare_spec (10 * a1 + d1) (10 * a2 + d2)); simpl; try reflexivity; lia.
Qed.

Lemma num_compare0 n s1 s2 v1 r1 v2 r2 :
  num n 0 s1 = Some (v1, r1) -> num n 0 s2 = Some (v2, r2) ->
  String.compare s1 s2 = lexc (v1 ?= v2) (String.compare r1 r2).
Proof. intros H1 H2. exact (num_compare n 0 0 _ _ _ _ _ _ H1 H2). Qed.

Lemma expect_compare c s1 s2 r1 r2 :
  expect c s1 = Some r1 -> expect c s2 = Some r2 ->
  String.compare s1 s2 = String.compare r1 r2.
Proof.
  destruct s1 as [|c1 s1], s2 as [|c2 s2]; simpl; try discriminate.
  destruct (Ascii.eqb_spec c c1) as [<-|]; [|discriminate].
  destruct (Ascii.eqb_spec c c2) as [<-|]; [|discriminate].
  intros [= <-] [= <-]. unfold Ascii.compare. by rewrite N.compare_refl.
Qed.

#[local] Arguments num : simpl never.
#[local] Arguments expect : simpl never.
#[local] Arguments valid_date : simpl never.
#[local] Arguments valid_clock : simpl never.

Lemma parse_date_compare s1 s2 y1 m1 d1 r1 y2 m2 d2 r2 :
  parse_date s1 = Some (y1, m1, d1, r1) -> parse_date s2 = Some (y2, m2, d2, r2) ->
  String.compare s1 s2
  = lexc (y1 ?= y2) (lexc (m1 ?= m2) (lexc (d1 ?= d2) (String.compare r1 r2))).
Proof.
  unfold parse_date. intros H1 H2.
  destruct (num 4 0 s1) as [[y a1]|] eqn:Ey1; [|discriminate].
  destruct (num 4 0 s2) as [[y' a2]|] eqn:Ey2; [|discriminate].
  simpl in H1, H2.
  destruct (expect "-" a1) as [b1|] eqn:Ee1; [|discriminate].
  destruct (expect "-" a2) as [b2|] eqn:Ee2; [|discriminate].
  simpl in H1, H2.
  destruct (num 2 0 b1) as [[m c1]|] eqn:Em1; [|discriminate].
  destruct (num 2 0 b2) as [[m' c2]|] eqn:Em2; [|discriminate].
  simpl in H1, H2.
  destruct (expect "-" c1) as [e1|] eqn:Ef1; [|discriminate].
  destruct (expect "-" c2) as [e2|] eqn:Ef2; [|discriminate].
  simpl in H1, H2.
  destruct (num 2 0 e1) as [[d f1]|] eqn:Ed1; [|discriminate].
  destruct (num 2 0 e2) as [[d' f2]|] eqn:Ed2; [|discriminate].
  simpl in H1, H2.
  destruct (valid_date y m d); [|discriminate].
  destruct (valid_date y' m' d'); [|discriminate].
  simplify_eq.
  rewrite (num_compare0 _ _ _ _ _ _ _ Ey1 Ey2).
  rewrite (expect_compare _ _ _ _ _ Ee1 Ee2).
  rewrite (num_compare0 _ _ _ _ _ _ _ Em1 Em2).
  rewrite (expect_compare _ _ _ _ _ Ef1 Ef2).
  rewrite (num_compare0 _ _ _ _ _ _ _ Ed1 Ed2).
  reflexivity.
Qed.

Lemma parse_clock_compare s1 s2 h1 mi1 sec1 h2 mi2 sec2 :
  parse_clock s1 = Some (h1, mi1, sec1) -> parse_clock s2 = Some (h2, mi2, sec2) ->
  String.compare s1 s2 = lexc (h1 ?= h2) (lexc (mi1 ?= mi2) (sec1 ?= sec2)).
Proof.
  unfold parse_clock. intros H1 H2.
  destruct (num 2 0 s1) as [[h a1]|] eqn:Eh1; [|discriminate].
  destruct (num 2 0 s2) as [[h' a2]|] eqn:Eh2; [|discriminate].
  simpl in H1, H2.
  destruct (expect ":" a1) as [b1|] eqn:Ee1; [|discriminate].
  destruct (expect ":" a2) as [b2|] eqn:Ee2; [|discriminate].
  simpl in H1, H2.
  destruct (num 2 0 b1) as [[m c1]|] eqn:Em1; [|discriminate].
  destruct (num 2 0 b2) as [[m' c2]|] eqn:Em2; [|discriminate].
  simpl in H1, H2.
  destruct (expect ":" c1) as [e1|] eqn:Ef1; [|discriminate].
  destruct (expect ":" c2) as [e2|] eqn:Ef2; [|discriminate].
  simpl in H1, H2.
  destruct (num 2 0 e1) as [[d f1]|] eqn:Ed1; [|discriminate].
  destruct (num 2 0 e2) as [[d' f2]|] eqn:Ed2; [|discriminate].
  simpl in H1, H2.
  destruct f1; [|discriminate]. destruct f2; [|discriminate].
  destruct (valid_clock h m d); [|discriminate].
  destruct (valid_clock h' m' d'); [|discriminate].
  simplify_eq.
  rewrite (num_compare0 _ _ _ _ _ _ _ Eh1 Eh2).
  rewrite (expect_compare _ _ _ _ _ Ee1 Ee2).
  rewrite (num_compare0 _ _ _ _ _ _ _ Em1 Em2).
  rewrite (expect_compare _ _ _ _ _ Ef1 Ef2).
  rewrite (num_compare0 _ _ _ _ _ _ _ Ed1 Ed2).
  simpl. by destruct (sec1 ?= sec2).
Qed.

Lemma parse_date_valid s y m d r :
  parse_date s = Some (y, m, d, r) -> valid_date y m d = true.
Proof.
  unfold parse_date. intros H.
  destruct (num 4 0 s) as [[y' a]|]; [|discriminate]. simpl in H.
  destruct (expect "-" a) as [b|]; [|discriminate]. simpl in H.
  destruct (num 2 0 b) as [[m' c]|]; [|discriminate]. simpl in H.
  destruct (expect "-" c) as [e|]; [|discriminate]. simpl in H.
  destruct (num 2 0 e) as [[d' f]|]; [|discriminate]. simpl in H.
  destruct (valid_date y' m' d') eqn:Hv; [|discriminate]. by simplify_eq.
Qed.

Lemma parse_clock_valid s h mi sec :
  parse_clock s = Some (h, mi, sec) ->
  0 <= h <= 23 /\ 0 <= mi <= 59 /\ 0 <= sec <= 59.
Proof.
  unfold parse_clock. intros H.
  destruct (num 2 0 s) as [[h' a]|] eqn:Eh; [|discriminate]. simpl in H.
  destruct (expect ":" a) as [b|]; [|discriminate]. simpl in H.
  destruct (num 2 0 b) as [[m' c]|] eqn:Em; [|discriminate]. simpl in H.
  destruct (expect ":" c) as [e|]; [|discriminate]. simpl in H.
  destruct (num 2 0 e) as [[d' f]|] eqn:Es; [|discriminate]. simpl in H.
  destruct f; [|discriminate].
  destruct (valid_clock h' m' d') eqn:Hv; [|discriminate]. simplify_eq.
  apply num_nonneg in Eh, Em, Es; try lia.
  unfold valid_clock in Hv. rewrite !andb_true_iff, !Z.leb_le in Hv. lia.
Qed.

Lemma timestamp_of_lt y1 m1 d1 h1 mi1 s1 y2 m2 d2 h2 mi2 s2 :
  valid_date y1 m1 d1 = true -> valid_date y2 m2 d2 = true ->
  0 <= h1 <= 23 /\ 0 <= mi1 <= 59 /\ 0 <= s1 <= 59 ->
  0 <= h2 <= 23 /\ 0 <= mi2 <= 59 /\ 0 <= s2 <= 59 ->
  lexc (y1 ?= y2) (lexc (m1 ?= m2) (lexc (d1 ?= d2)
    (lexc (h1 ?= h2) (lexc (mi1 ?= mi2) (s1 ?= s2))))) = Lt ->
  timestamp_of y1 m1 d1 h1 mi1 s1 < timestamp_of y2 m2 d2 h2 mi2 s2.
Proof.
  intros Hv1 Hv2 Hc1 Hc2 Hlex. unfold timestamp_of, NS_PER_SECOND.
  destruct (Z.compare_spec y1 y2) as [->|Hy|Hy]; simpl in Hlex; try discriminate.
  2:{ pose proof (days_from_civil_lt _ _ _ _ _ _ Hv1 Hv2 (or_introl Hy)). lia. }
  destruct (Z.compare_spec m1 m2) as [->|Hm|Hm]; simpl in Hlex; try discriminate.
  2:{ pose proof (days_from_civil_lt _ _ _ _ _ _ Hv1 Hv2
        (or_intror (conj eq_refl (or_introl Hm)))). lia. }
  destruct (Z.compare_spec d1 d2) as [->|Hd|Hd]; simpl in Hlex; try discriminate.
  2:{ pose proof (days_from_civil_lt _ _ _ _ _ _ Hv1 Hv2
        (or_intror (conj eq_refl (or_intror (conj eq_refl Hd))))). lia. }
  generalize (days_from_civil y2 m2 d2). intros D.
  destruct (Z.compare_spec h1 h2) as [->|Hh|Hh]; simpl in Hlex; try discriminate; [|lia].
  destruct (Z.compare_spec mi1 mi2) as [->|Hmi|Hmi]; simpl in Hlex; try discriminate; [|lia].
  rewrite Z.compare_lt_iff in Hlex. lia.
Qed.

Lemma hour_layout_parse s :
  hour_layout s = true ->
  exists y m d h mi sec r,
    parse_date s = Some (y, m, d, String "T" r)
    /\ parse_clock r = Some (h, mi, sec)
    /\ parse_iso s = Some (timestamp_of y m d h mi sec, ResSecond).
Proof.
  unfold hour_layout, parse_iso.
  destruct (parse_date s) as [[[[y m] d] [|c r]]|] eqn:Hd; try discriminate.
  intros [Hc Hk]%andb_true_iff.
  apply Ascii.eqb_eq in Hc as ->.
  apply bool_decide_eq_true in Hk as [[[h mi] sec] Hk].
  exists y, m, d, h, mi, sec, r. repeat split; [done|]. simpl. by rewrite Hk.
Qed.

(** On strings of the dataset's layout, [pd.to_datetime] preserves the
    string order strictly. *)
Lemma parse_iso_strict_mono s1 s2 t1 r1 t2 r2 :
  hour_layout s1 = true -> hour_layout s2 = true ->
  parse_iso s1 = Some (t1, r1) -> parse_iso s2 = Some (t2, r2) ->
  String.compare s1 s2 = Lt -> t1 < t2.
Proof.
  intros (y1 & m1 & d1 & h1 & mi1 & sec1 & q1 & Hd1 & Hk1 & Hp1)%hour_layout_parse
         (y2 & m2 & d2 & h2 & mi2 & sec2 & q2 & Hd2 & Hk2 & Hp2)%hour_layout_parse
         E1 E2 Hlt.
  rewrite Hp1 in E1. rewrite Hp2 in E2. simplify_eq.
  rewrite (parse_date_compare _ _ _ _ _ _ _ _ _ _ Hd1 Hd2) in Hlt.
  change (String.compare (String "T" q1) (String "T" q2))
    with (String.compare q1 q2) in Hlt.
  rewrite (parse_clock_compare _ _ _ _ _ _ _ _ Hk1 Hk2) in Hlt.
  eapply timestamp_of_lt; eauto using parse_date_valid, parse_clock_valid.
Qed.

End TimeFacts.

(** ** Tables *)

Lemma getitem_assoc {I C} (d : DataFrame I C) name :
  getitem d name = match assoc name (columns d) with
                   | Some col => Ok col
                   | None => Raise (Exn KeyError ("'" +:+ name +:+ "'"))
                   end.
Proof. reflexivity. Qed.

Lemma assoc_is_Some {V} k (l : list (string * V)) :
  is_Some (assoc k l) <-> k ∈ l.*1.
Proof.
  induction l as [|[k' v] l IH]; simpl.
  - split; [by intros [? ?] | by intros ?%elem_of_nil].
  - rewrite elem_of_cons. destruct (decide (k = k')) as [->|Hne].
    + split; eauto.
    + rewrite IH. split; [by right | by intros [|]].
Qed.

(** ** The loader *)

Module LoaderFacts.
Import Loader.

Lemma for_each_Forall2 {A B} (f : A -> result B) l l' :
  for_each f l = Ok l' -> Forall2 (fun x y => f x = Ok y) l l'.
Proof.
  revert l'. induction l as [|x l IH]; intros l' H; simpl in H.
  - injection H as <-. constructor.
  - destruct (f x) as [y|] eqn:Hy; [|discriminate]. simpl in H.
    destruct (for_each f l) as [ys|]; [|discriminate]. simpl in H.
    injection H as <-. constructor; auto.
Qed.

Lemma for_each_map {A B} (f : A -> result B) (g : A -> B) l l' :
  (forall x y, x ∈ l -> f x = Ok y -> y = g x) ->
  for_each f l = Ok l' -> l' = map g l.
Proof.
  intros Hg H%for_each_Forall2.
  induction H as [|x y l l' Hy _ IH]; [done|].
  simpl. f_equal.
  - apply Hg; [left|done].
  - apply IH. intros ? ? ?. apply Hg. by right.
Qed.

(** *** The cells of the table built from the records *)


Lemma filled_key r s :
  as_key (filled "HourDK" r) = Ok s -> hour_of r = Some s.
Proof.
  unfold filled, cell_of, hour_of.
  destruct (assoc "HourDK" r) as [[| |]|]; simpl; congruence.
Qed.

Lemma filled_number name r q :
  as_number (filled name r) = Ok q -> q = field_value name r.
Proof.
  unfold filled, cell_of, field_value.
  destruct (assoc name r) as [[| |]|]; simpl; congruence.
Qed.

Lemma fillna_json_normalize_columns rs :
  columns (fillna (json_normalize rs))
  = map (fun name => (name, map (filled name) rs))
        (first_seen (concat (map (fun r => r.*1) rs))).
Proof.
  unfold fillna, json_normalize. simpl.
  rewrite map_map. apply map_ext. intros name. by rewrite map_map.
Qed.

Lemma filter_named {A} (P : string -> Prop) (g : string -> A) names
    (Dp : forall nc : string * A, Decision (P nc.1))
    (Dn : forall n, Decision (P n)) :
  @filter _ _ _ (fun nc => P nc.1) Dp (map (fun n => (n, g n)) names)
  = map (fun n => (n, g n)) (@filter _ _ _ P Dn names).
Proof.
  induction names as [|n names IH]; [done|].
  simpl. rewrite !filter_cons, IH. simpl.
  by destruct (Dp (n, g n)), (Dn n).
Qed.

Lemma assoc_named {A} (g : string -> A) names k v :
  assoc k (map (fun n => (n, g n)) names) = Some v -> v = g k.
Proof.
  induction names as [|n names IH]; simpl; [done|].
  destruct (decide (k = n)) as [->|]; [congruence|done].
Qed.

(** *** The sum of a group *)

Lemma group_sum_from_total name g rs keys : forall acc,
  Forall2 (fun r k => hour_of r = Some k) rs keys ->
  group_sum_from acc g keys (map (field_value name) rs)
  = foldl Qplus acc
      (map (field_value name) (filter (fun r => hour_of r = Some g) rs)).
Proof.
  intros acc H. revert acc.
  induction H as [|r k rs keys Hk _ IH]; intros acc; [done|].
  simpl. rewrite filter_cons, IH, Hk.
  destruct (decide (k = g)) as [->|Hne].
  - by rewrite decide_True.
  - rewrite decide_False; [done|congruence].
Qed.

Lemma numbers_of_filled name rs qs :
  for_each as_number (map (filled name) rs) = Ok qs ->
  qs = map (field_value name) rs.
Proof.
  intros H%for_each_Forall2. apply Forall2_fmap_l in H.
  induction H as [|r q rs qs Hq _ IH]; [done|].
  simpl. f_equal; [|done]. by apply filled_number.
Qed.

Lemma keys_of_filled rs keys :
  for_each as_key (map (filled "HourDK") rs) = Ok keys ->
  Forall2 (fun r k => hour_of r = Some k) rs keys /\ omap hour_of rs = keys.
Proof.
  intros H%for_each_Forall2. apply Forall2_fmap_l in H.
  induction H as [|r k rs keys Hk _ [IH1 IH2]]; [done|].
  apply filled_key in Hk. split; [by constructor|].
  simpl. rewrite Hk. f_equal. exact IH2.
Qed.

Lemma measure_names_filter rs :
  filter (fun n => n ≠ "HourDK")
    (filter (fun n => n ∉ ["HourUTC"; "PriceArea"])
       (first_seen (concat (map (fun r => r.*1) rs))))
  = measure_names rs.
Proof.
  unfold measure_names, key_fields. rewrite list_filter_filter.
  apply list_filter_iff. intros n.
  rewrite !not_elem_of_cons. intuition.
Qed.

(** *** What a completed [process] returns *)

Lemma process_ok data rs t :
  data !! "records" = Some rs -> process data = Ok t ->
  Forall (fun r => is_Some (hour_of r)) rs
  /\ Forall2 (fun h ts => to_datetime_label h = Ok ts) (hours_of rs) (index t)
  /\ columns t
     = map (fun name => (name, map (fun h => group_total rs h name) (hours_of rs)))
           (measure_names rs).
Proof.
  intros Hrec. unfold process. rewrite Hrec. cbv zeta.
  remember (fillna (json_normalize rs)) as df0 eqn:Hdf0. cbn [mbind result_bind].
  destruct (drop _ _) as [dropped|] eqn:Hdrop; [|discriminate]. cbn [mbind result_bind].
  assert (columns dropped
          = map (fun n => (n, map (filled n) rs))
                (filter (fun n => n ∉ ["HourUTC"; "PriceArea"])
                   (first_seen (concat (map (fun r => r.*1) rs))))) as Hcols.
  { unfold drop in Hdrop. destruct (filter _ ["HourUTC"; "PriceArea"]); [|discriminate].
    injection Hdrop as <-. cbn [columns]. subst df0.
    etrans; [|apply (filter_named (fun n => n ∉ ["HourUTC"; "PriceArea"])
                       (fun n => map (filled n) rs))].
    f_equal. apply fillna_json_normalize_columns. }
  unfold groupby_sum. rewrite getitem_assoc, Hcols.
  destruct (assoc "HourDK" _) as [key_cells|] eqn:Hkey; [|discriminate]. cbn [mbind result_bind].
  apply assoc_named in Hkey as ->.
  destruct (for_each as_key _) as [keys|] eqn:Hkeys; [|discriminate]. cbn [mbind result_bind].
  apply keys_of_filled in Hkeys as [Hhours Hkeys].
  assert (filter (fun nc : string * list cell => nc.1 ≠ "HourDK")
            (map (fun n => (n, map (filled n) rs))
               (filter (fun n => n ∉ ["HourUTC"; "PriceArea"])
                  (first_seen (concat (map (fun r => r.*1) rs)))))
          = map (fun n => (n, map (filled n) rs)) (measure_names rs)) as ->.
  { rewrite <- measure_names_filter.
    apply (filter_named (fun n => n ≠ "HourDK") (fun n => map (filled n) rs)). }
  destruct (for_each _ (map _ (measure_names rs))) as [cols|] eqn:Hsum;
    [|discriminate]. cbn [mbind result_bind].
  destruct (for_each to_datetime_label _) as [new_index|] eqn:Hidx;
    [|discriminate]. cbn [mbind result_bind].
  intros [= <-]. cbn [index columns].
  split; [|split].
  - clear -Hhours. induction Hhours; constructor; eauto.
  - apply for_each_Forall2 in Hidx. unfold hours_of. by rewrite Hkeys.
  - apply (for_each_map _
      (fun nc => (nc.1, map (fun h => group_total rs h nc.1) (hours_of rs)))) in Hsum.
    + rewrite Hsum, map_map. done.
    + intros [n col] y [n' [[= -> ->] _]]%list_elem_of_fmap Hy. simpl in Hy.
      destruct (for_each as_number _) as [qs|] eqn:Hqs; [|discriminate].
      apply numbers_of_filled in Hqs as ->. simpl in Hy. injection Hy as <-.
      simpl. f_equal. unfold hours_of. rewrite Hkeys.
      apply map_ext. intros g. unfold group_sum, group_total.
      by apply group_sum_from_total.
Qed.

(** *** What a completed call went through *)

Lemma load_power_data_ok get start_date end_date t :
  load_power_data get start_date end_date = Ok t ->
  exists response data,
    get (api_url start_date end_date) = Ok response
    /\ json response = Ok data /\ process data = Ok t.
Proof.
  unfold load_power_data. cbv zeta.
  destruct (get _) as [response|e]; cbn [mbind result_bind].
  2:{ by destruct (is_RequestException e). }
  destruct (raise_for_status _ response) as [[]|e]; cbn [mbind result_bind].
  2:{ by destruct (is_RequestException e). }
  destruct (json response) as [data|e] eqn:Hjson; cbn [mbind result_bind].
  2:{ by destruct (is_RequestException e). }
  destruct (process data) as [t'|e] eqn:Hp.
  2:{ by destruct (is_RequestException e). }
  intros [= <-]. by exists response, data.
Qed.

Lemma load_power_data_received get start_date end_date t rs :
  load_power_data get start_date end_date = Ok t ->
  received get start_date end_date = Some rs ->
  exists data, data !! "records" = Some rs /\ process data = Ok t.
Proof.
  intros (response & data & Hget & Hjson & Hp)%load_power_data_ok.
  unfold received. rewrite Hget, Hjson. eauto.
Qed.

(** *** Order *)

Lemma StronglySorted_strict {A} (R S : relation A) l :
  StronglySorted R l -> NoDup l ->
  (forall a b, R a b -> a ≠ b -> S a b) ->
  StronglySorted S l.
Proof.
  intros Hs Hnd HRS. induction Hs as [|a l Hl IH Ha]; constructor.
  - apply IH. by apply NoDup_cons in Hnd as [_ ?].
  - apply NoDup_cons in Hnd as [Hnot _].
    rewrite Forall_forall in Ha |- *. intros b Hb. apply HRS; [by apply Ha|].
    intros ->. by apply Hnot.
Qed.

Lemma StronglySorted_Forall2 {A B} (R : relation A) (S : relation B)
    (P : A -> B -> Prop) l k :
  Forall2 P l k -> StronglySorted R l ->
  (forall a1 a2 b1 b2, a1 ∈ l -> a2 ∈ l -> P a1 b1 -> P a2 b2 -> R a1 a2 -> S b1 b2) ->
  StronglySorted S k.
Proof.
  induction 1 as [|a b l k Hab Hlk IH]; intros Hs Hmono; [constructor|].
  apply StronglySorted_cons in Hs as [Ha Hs]. constructor.
  - apply IH; [done|]. intros ? ? ? ? ? ?. apply Hmono; by right.
  - rewrite Forall_forall in Ha. rewrite Forall_forall. intros b' Hb'.
    apply list_elem_of_lookup_1 in Hb' as [i Hi].
    destruct (Forall2_lookup_r _ _ _ _ _ Hlk Hi) as (a' & Ha' & Hp).
    apply list_elem_of_lookup_2 in Ha'.
    eapply (Hmono a a'); [left|by right|done|done|by apply Ha].
Qed.

Lemma StronglySorted_lt_NoDup (l : list Z) : StronglySorted Z.lt l -> NoDup l.
Proof.
  induction 1 as [|a l _ IH Ha]; constructor; [|done].
  intros Hin. rewrite Forall_forall in Ha. specialize (Ha a Hin). lia.
Qed.

Lemma hours_of_sorted rs :
  StronglySorted (fun a b => String.compare a b = Lt) (hours_of rs).
Proof.
  unfold hours_of. set (keys := remove_dups _).
  assert (NoDup (merge_sort String.le keys)) as Hnd.
  { rewrite merge_sort_Permutation. apply NoDup_remove_dups. }
  apply (StronglySorted_strict String.le);
    [apply StronglySorted_merge_sort; apply _ | done |].
  intros a b Hle Hne. unfold String.le, String.leb in Hle.
  destruct (String.compare a b) eqn:Hc; [|done|done].
  by apply String.compare_eq_iff in Hc.
Qed.

Lemma hours_of_elem rs h :
  h ∈ hours_of rs <-> exists r, r ∈ rs /\ hour_of r = Some h.
Proof.
  unfold hours_of. rewrite merge_sort_Permutation, elem_of_remove_dups.
  apply list_elem_of_omap.
Qed.

Lemma to_datetime_label_ok h ts :
  to_datetime_label h = Ok ts -> exists r, Time.parse_iso h = Some (ts, r).
Proof.
  unfold to_datetime_label.
  destruct (Time.parse_iso h) as [[t r]|]; [|discriminate].
  intros [= <-]. eauto.
Qed.

(** *** The loader on the sample exchanges *)

Example load_two_hours :
  load_power_data (serving two_hours) "2022-03-01" "2022-03-02"
  = Ok (mkFrame [1646136000000000000%Z; 1646139600000000000%Z]
                [("SolarPower", [7%Q; 30%Q]); ("TotalLoad", [0%Q; 5%Q])]).
Proof. vm_compute. reflexivity. Qed.

Example load_no_records :
  load_power_data (serving []) "2022-03-01" "2022-03-02"
  = Raise (ProcessingError (Exn KeyError "'HourUTC' not found in axis")).
Proof. vm_compute. reflexivity. Qed.

Example load_unreachable :
  load_power_data (fun _ => Raise (Exn (RequestException "ConnectionError") "refused"))
    "2022-03-01" "2022-03-02"
  = Raise (FetchError (Exn (RequestException "ConnectionError") "refused")).
Proof. reflexivity. Qed.

(** *** The claims on the loader *)



(** C4. A completed call returns, for every field of the records other
    than the area identifier, the UTC hour and the local hour, one column
    holding per local hour the sum of the field over all records of that
    hour, whatever their price area; the rows follow the distinct local
    hours in ascending order. *)
Theorem hourly_totals_over_areas get start_date end_date t rs :
  load_power_data get start_date end_date = Ok t ->
  received get start_date end_date = Some rs ->
  Forall2 (fun h ts => to_datetime_label h = Ok ts) (hours_of rs) (index t)
  /\ columns t
     = map (fun name => (name, map (fun h => group_total rs h name) (hours_of rs)))
           (measure_names rs)
  /\ Forall (fun name => name ∉ key_fields) (column_names t)
  /\ NoDup (column_names t).
Proof.
  intros Hload Hrec.
  destruct (load_power_data_received _ _ _ _ _ Hload Hrec) as (data & Hd & Hp).
  destruct (process_ok _ _ _ Hd Hp) as (_ & Hidx & Hcols).
  split; [done|]. split; [done|].
  assert (column_names t = measure_names rs) as ->.
  { unfold column_names. rewrite Hcols, <- list_fmap_compose. apply list_fmap_id. }
  unfold measure_names, first_seen. split.
  - apply Forall_forall. by intros name [? _]%list_elem_of_filter.
  - apply NoDup_filter. rewrite reverse_Permutation. apply NoDup_remove_dups.
Qed.

Lemma hourly_totals_over_areas_witness :
  exists t,
    load_power_data (serving two_areas) "2022-03-01" "2022-03-02" = Ok t
    /\ columns t = [("SolarPower", [30%Q])].
Proof.
  eexists. split; [vm_compute; reflexivity|].
  destruct (hourly_totals_over_areas (serving two_areas)
              "2022-03-01" "2022-03-02" _ two_areas
              ltac:(vm_compute; reflexivity) ltac:(vm_compute; reflexivity))
    as (_ & Hcols & _ & _).
  rewrite Hcols. vm_compute. reflexivity.
Defined.

Lemma assoc_null_to_zero name r :
  assoc name (null_to_zero r) = zero_for_null <$> assoc name r.
Proof.
  induction r as [|[k v] r IH]; [done|].
  cbn [null_to_zero map assoc fst snd] in *.
  destruct (decide (name = k)); [done|apply IH].
Qed.

Lemma filled_null_to_zero name r : filled name (null_to_zero r) = filled name r.
Proof.
  unfold filled, cell_of. rewrite assoc_null_to_zero.
  by destruct (assoc name r) as [[| |]|].
Qed.

Lemma fillna_null_to_zero rs :
  fillna (json_normalize (map null_to_zero rs)) = fillna (json_normalize rs).
Proof.
  assert (forall rs', fillna (json_normalize rs')
          = mkFrame (seq 0 (length rs')) (columns (fillna (json_normalize rs'))))
    as Heta by done.
  rewrite (Heta rs), (Heta (map null_to_zero rs)).
  rewrite !fillna_json_normalize_columns, length_map. f_equal.
  assert (concat (map (fun r => r.*1) (map null_to_zero rs))
          = concat (map (fun r => r.*1) rs)) as ->.
  { rewrite map_map. f_equal. apply map_ext. intros r. unfold null_to_zero.
    rewrite <- list_fmap_compose. by apply list_fmap_ext. }
  apply map_ext. intros name. f_equal.
  rewrite map_map. apply map_ext, filled_null_to_zero.
Qed.


(** C6, as the code has it. A call returns a table only when the request,
    the status check, the decoding and the shaping all went through;
    every failure comes out wrapped, carrying its cause: as the fetch
    error when the cause is a [RequestException], as the processing error
    otherwise. A transport failure and a 4xx or 5xx status give the fetch
    error; a body that does not decode gives the error its decoder's
    exception selects; a missing [records] member gives the processing
    error. *)
Theorem failures_are_wrapped get start_date end_date :
  (forall t, load_power_data get start_date end_date = Ok t ->
     exists response data,
       get (api_url start_date end_date) = Ok response
       /\ json response = Ok data /\ process data = Ok t)
  /\ (forall err, load_power_data get start_date end_date = Raise err ->
       exists cause,
         exn_context err = Some cause
         /\ err = if is_RequestException cause then FetchError cause
                  else ProcessingError cause)
  /\ (forall cause,
        get (api_url start_date end_date) = Raise cause ->
        is_RequestException cause = true ->
        load_power_data get start_date end_date = Raise (FetchError cause))
  /\ (forall response,
        get (api_url start_date end_date) = Ok response ->
        (400 <= status_code response < 600)%Z ->
        exists cause,
          exn_cls cause = RequestException "HTTPError"
          /\ load_power_data get start_date end_date = Raise (FetchError cause))
  /\ (forall response cause,
        get (api_url start_date end_date) = Ok response ->
        ~ (400 <= status_code response < 600)%Z ->
        json response = Raise cause ->
        load_power_data get start_date end_date
        = Raise (if is_RequestException cause then FetchError cause
                 else ProcessingError cause))
  /\ (forall response data,
        get (api_url start_date end_date) = Ok response ->
        ~ (400 <= status_code response < 600)%Z ->
        json response = Ok data -> data !! "records" = None ->
        load_power_data get start_date end_date
        = Raise (ProcessingError (Exn KeyError "'records'"))).
Proof.
  assert (forall response, ~ (400 <= status_code response < 600)%Z ->
            raise_for_status (api_url start_date end_date) response = Ok ())
    as Hstatus.
  { intros response Hs. unfold raise_for_status.
    destruct (Z.leb_spec 400 (status_code response)),
             (Z.ltb_spec (status_code response) 500),
             (Z.leb_spec 500 (status_code response)),
             (Z.ltb_spec (status_code response) 600); simpl; try done; lia. }
  split; [apply load_power_data_ok|]. split; [|split; [|split; [|split]]].
  - intros err Herr. unfold load_power_data in Herr. cbv zeta in Herr.
    destruct (_ ≫= _) as [t|cause]; [done|]. exists cause.
    destruct (is_RequestException cause); by injection Herr as <-.
  - intros cause Hget Hreq. unfold load_power_data. cbv zeta.
    rewrite Hget. cbn [mbind result_bind]. by rewrite Hreq.
  - intros response Hget Hs. unfold load_power_data. cbv zeta.
    rewrite Hget. cbn [mbind result_bind]. unfold raise_for_status.
    destruct (Z.leb_spec 400 (status_code response)); [|lia].
    destruct (Z.ltb_spec (status_code response) 500); simpl.
    + eexists. split; [|reflexivity]. done.
    + destruct (Z.leb_spec 500 (status_code response)); [|lia].
      destruct (Z.ltb_spec (status_code response) 600); [|lia]. simpl.
      eexists. split; [|reflexivity]. done.
  - intros response cause Hget Hs Hjson. unfold load_power_data. cbv zeta.
    rewrite Hget. cbn [mbind result_bind]. rewrite (Hstatus _ Hs).
    cbn [mbind result_bind]. rewrite Hjson. cbn [mbind result_bind].
    by destruct (is_RequestException cause).
  - intros response data Hget Hs Hjson Hrec. unfold load_power_data. cbv zeta.
    rewrite Hget. cbn [mbind result_bind]. rewrite (Hstatus _ Hs).
    cbn [mbind result_bind]. rewrite Hjson. cbn [mbind result_bind].
    unfold process. rewrite Hrec. done.
Qed.

Lemma failures_are_wrapped_witness :
  exists cause,
    exn_cls cause = RequestException "HTTPError"
    /\ load_power_data (answering 404 "Not Found" (Ok {[ "records" := two_areas ]}))
         "2022-03-01" "2022-03-02" = Raise (FetchError cause).
Proof.
  refine (proj1 (proj2 (proj2 (proj2 (failures_are_wrapped
            (answering 404 "Not Found" (Ok {[ "records" := two_areas ]}))
            "2022-03-01" "2022-03-02")))) _ eq_refl _).
  simpl. lia.
Defined.

(** C6 as stated fails twice: a status outside 2xx that is no client or
    server error lets the call return a table, and a body that requests
    cannot decode comes out as the fetch error, not the processing
    error. *)
Lemma non_2xx_counterexample :
  (exists t,
     load_power_data (answering 304 "Not Modified" (Ok {[ "records" := two_areas ]}))
       "2022-03-01" "2022-03-02" = Ok t)
  /\ load_power_data
       (answering 200 "OK"
          (Raise (Exn (RequestException "JSONDecodeError") "Expecting value")))
       "2022-03-01" "2022-03-02"
     = Raise (FetchError (Exn (RequestException "JSONDecodeError") "Expecting value"))
  /\ FetchError (Exn (RequestException "JSONDecodeError") "Expecting value")
     <> ProcessingError (Exn (RequestException "JSONDecodeError") "Expecting value").
Proof.
  split; [eexists; vm_compute; reflexivity|]. split; [vm_compute; reflexivity|].
  discriminate.
Qed.

End LoaderFacts.

(** ** The renderer *)

Module PlotFacts.
Import Plot.

(** *** Running the monad *)

Lemma post_bind {A B} (m : M A) (f : A -> M B) w Q :
  post m w (fun r w' =>
    match r with Ok a => post (f a) w' Q | Raise e => Q (Raise e) w' end) ->
  post (m ≫= f) w Q.
Proof. unfold post, mbind, M_bind. by destruct (m w) as [[a|e] w']. Qed.

Lemma post_mono {A} (m : M A) w (Q Q' : result A -> world -> Prop) :
  post m w Q -> (forall r w', Q r w' -> Q' r w') -> post m w Q'.
Proof. unfold post. auto. Qed.

Lemma post_ret {A} (a : A) w (Q : result A -> world -> Prop) :
  Q (Ok a) w -> post (mret a) w Q.
Proof. done. Qed.

Lemma post_lift {A} (r : result A) w (Q : result A -> world -> Prop) :
  Q r w -> post (lift r) w Q.
Proof. done. Qed.

Lemma post_emit c w (Q : result unit -> world -> Prop) :
  Q (Ok ()) (mkWorld (heap w) (canvas w ++ [c])) -> post (emit c) w Q.
Proof. done. Qed.

Lemma post_deref l d w (Q : result frame -> world -> Prop) :
  heap w !! l = Some d -> Q (Ok d) w -> post (deref l) w Q.
Proof. unfold post, deref. by intros ->. Qed.

Lemma post_alloc d w (Q : result nat -> world -> Prop) :
  Q (Ok (fresh (dom (heap w))))
    (mkWorld (<[fresh (dom (heap w)) := d]> (heap w)) (canvas w)) ->
  post (alloc d) w Q.
Proof. done. Qed.

Lemma fresh_lookup (h : gmap nat frame) : h !! fresh (dom h) = None.
Proof. apply not_elem_of_dom, is_fresh. Qed.

Lemma world_eta w : mkWorld (heap w) (canvas w) = w.
Proof. by destruct w. Qed.

(** *** Columns *)

Lemma has_column_assoc d name :
  has_column d name = true <-> is_Some (assoc name (columns d)).
Proof.
  unfold has_column, column_names. rewrite bool_decide_eq_true.
  symmetry. apply assoc_is_Some.
Qed.

(** *** The two loops *)

Lemma scale_columns_run l items : forall w d,
  heap w !! l = Some d ->
  scale_columns l items w
  = (Ok (), mkWorld (<[l := foldl scale_one d items]> (heap w)) (canvas w)).
Proof.
  induction items as [|[tech factor] items IH]; intros w d Hl.
  - simpl. rewrite insert_id by done. by rewrite world_eta.
  - change (foldl scale_one d ((tech, factor) :: items))
      with (foldl scale_one (scale_one d (tech, factor)) items).
    simpl. unfold mbind, M_bind, deref. rewrite Hl.
    unfold scale_one, lift, getitem. simpl.
    destruct (has_column d tech) eqn:Hc.
    + apply has_column_assoc in Hc as [col Hcol]. rewrite Hcol. simpl.
      rewrite (IH _ (setitem d tech (map (fun x => (x * factor)%Q) col)));
        [|apply lookup_insert_eq].
      simpl. by rewrite insert_insert_eq.
    + assert (assoc tech (columns d) = None) as ->.
      { apply eq_None_not_Some. rewrite <- has_column_assoc. by rewrite Hc. }
      simpl. by apply IH.
Qed.

Lemma stack_columns_run l d sf names : forall y w,
  heap w !! l = Some d ->
  Forall (fun n => is_Some (assoc n (columns d))) names ->
  stack_columns l sf names y w
  = (Ok (foldl vadd y (values d names)),
     mkWorld (heap w) (canvas w ++ bands d sf names y)).
Proof.
  induction names as [|column names IH]; intros y w Hl Hall; simpl.
  - by rewrite app_nil_r, world_eta.
  - apply Forall_cons in Hall as [[col Hcol] Hall].
    unfold mbind at 1, M_bind at 1, deref. rewrite Hl.
    unfold values. simpl. rewrite Hcol. simpl.
    unfold mbind, M_bind, lift, getitem. rewrite Hcol. simpl.
    rewrite IH by done. simpl.
    by rewrite <- !app_assoc.
Qed.

Lemma select_ok d names sel :
  select d names = Ok sel ->
  index sel = index d /\ column_names sel = names
  /\ (columns sel).*2 = values d names
  /\ Forall (fun n => is_Some (assoc n (columns d))) names.
Proof.
  unfold select, column_names, values.
  destruct (for_each _ names) as [cols|e] eqn:Hcols; [|discriminate].
  simpl. intros [= <-]. simpl. split; [done|].
  revert cols Hcols. induction names as [|name names IH]; intros cols Hcols.
  - simpl in Hcols. by simplify_eq.
  - simpl in Hcols. rewrite getitem_assoc in Hcols.
    destruct (assoc name (columns d)) as [col|] eqn:Hcol; [|discriminate].
    simpl in Hcols.
    destruct (for_each _ names) as [cols'|] eqn:Hcols'; [|discriminate].
    simpl in Hcols. simplify_eq. simpl.
    destruct (IH cols' eq_refl) as (Hn & Hv & Hall).
    rewrite Hcol. simpl.
    split; [f_equal; exact Hn|]. split; [f_equal; exact Hv|]. constructor; eauto.
Qed.

(** *** The phases of the function *)

Lemma prepare_post df d sf start end_ w :
  heap w !! df = Some d ->
  post (prepare df sf start end_) w (fun r w' =>
    canvas w' = canvas w /\ heap w ⊆ heap w'
    /\ match r with
       | Ok l => exists d', prepared d sf start end_ = Ok d' /\ heap w' !! l = Some d'
       | Raise e => prepared d sf start end_ = Raise e
       end).
Proof.
  intros Hdf. unfold prepare, prepared.
  set (h1 := <[fresh (dom (heap w)) := d]> (heap w)).
  assert (heap w ⊆ h1) as Hsub1 by apply insert_subseteq, fresh_lookup.
  apply post_bind, post_bind, (post_deref _ d); [done|]. apply post_alloc.
  fold h1. set (l1 := fresh (dom (heap w))).
  apply post_bind.
  set (h2 := <[l1 := scaled sf d]> h1).
  assert (heap w ⊆ h2) as Hsub2.
  { apply insert_subseteq_r; [apply fresh_lookup | done]. }
  apply (post_mono _ _ (fun r w' => r = Ok () /\ w' = mkWorld h2 (canvas w))).
  { unfold post, scaled, h2. destruct sf as [[|item items]|].
    1,3: by simpl; rewrite insert_id by apply lookup_insert_eq.
    by rewrite (scale_columns_run _ _ _ d) by apply lookup_insert_eq. }
  intros r w' [-> ->].
  assert (h2 !! l1 = Some (scaled sf d)) as Hl1 by apply lookup_insert_eq.
  apply post_bind.
  apply (post_mono _ _ (fun r w' =>
    canvas w' = canvas w /\ heap w ⊆ heap w'
    /\ match r with
       | Ok l => exists d1,
           match start with
           | Some ((String _ _) as s) => slice_from (scaled sf d) s
           | _ => Ok (scaled sf d)
           end = Ok d1 /\ heap w' !! l = Some d1
       | Raise e =>
           match start with
           | Some ((String _ _) as s) => slice_from (scaled sf d) s
           | _ => Ok (scaled sf d)
           end = Raise e
       end)).
  { destruct start as [[|c s]|]; try (apply post_ret; simpl; eauto).
    apply post_bind, (post_deref _ (scaled sf d)); [done|].
    apply post_bind, post_lift.
    destruct (slice_from _ _) as [d1|e]; [|done].
    apply post_alloc. simpl. repeat split; [|exists d1; split; [done|apply lookup_insert_eq]].
    etrans; [exact Hsub2|]. apply insert_subseteq, fresh_lookup. }
  intros [l2|e] w2 (Hc2 & Hs2 & H2); [|by rewrite H2].
  destruct H2 as (d1 & -> & Hl2). simpl.
  destruct end_ as [[|c s]|]; try (apply post_ret; simpl; eauto).
  apply post_bind, (post_deref _ d1); [done|].
  apply post_bind, post_lift.
  destruct (slice_to _ _) as [d2|e]; [|done].
  apply post_alloc. simpl. repeat split; [done| |exists d2; split; [done|apply lookup_insert_eq]].
  etrans; [exact Hs2|]. apply insert_subseteq, fresh_lookup.
Qed.

Lemma draw_stack_post l d names sf w :
  heap w !! l = Some d ->
  post (draw_stack l names sf) w (fun r w' =>
    heap w' = heap w
    /\ (r = Ok () ->
        Forall (fun n => is_Some (assoc n (columns d))) names
        /\ canvas w' = canvas w ++ bands d sf names (zeros (length (index d))))).
Proof.
  intros Hl. unfold draw_stack.
  apply post_bind, (post_deref _ d); [done|].
  apply post_bind, post_lift.
  destruct (select d names) as [sel|e] eqn:Hsel; [|done].
  apply select_ok in Hsel as (_ & Hn & _ & Hall).
  apply post_bind. unfold post at 1.
  rewrite Hn, (stack_columns_run _ d) by done. simpl.
  by apply post_ret.
Qed.

Lemma draw_load_post l d sf plot_load w :
  heap w !! l = Some d ->
  post (draw_load l sf plot_load) w (fun r w' =>
    heap w' = heap w
    /\ (exists cs, canvas w' = canvas w ++ cs /\ Forall (fun c => is_plot c = true) cs)
    /\ (sf = None -> plot_load = true ->
        r = Raise (Exn TypeError "argument of type 'NoneType' is not iterable"))).
Proof.
  intros Hl. unfold draw_load.
  assert (exists cs, canvas w = canvas w ++ cs
                     /\ Forall (fun c => is_plot c = true) cs) as Hnil.
  { exists []. by rewrite app_nil_r. }
  destruct plot_load.
  2:{ do 3 (apply post_bind, post_ret). by apply post_ret. }
  destruct sf as [items|].
  2:{ apply post_bind, post_bind. by unfold contains, post, raise. }
  apply post_bind, post_bind, post_ret, post_ret.
  set (found := bool_decide _). apply post_bind.
  apply (post_mono _ _ (fun r w' =>
    heap w' = heap w
    /\ exists cs, canvas w' = canvas w ++ cs /\ Forall (fun c => is_plot c = true) cs)).
  { destruct found; simpl.
    - by apply post_ret.
    - apply post_bind, (post_deref _ d); [done|]. apply post_bind, post_lift.
      destruct (getitem d "TotalLoad"); [apply post_emit|]; simpl; [|done].
      split; [done|]. eexists [_]. split; [done|]. by repeat constructor. }
  intros [[]|e] w1 (Hh1 & cs1 & Hc1 & Hp1).
  2:{ split; [done|]. split; [by exists cs1|done]. }
  apply post_bind, post_ret. fold found.
  destruct found; [|apply post_ret; split; [done|]; split; [by exists cs1|done]].
  apply post_bind, (post_deref _ d); [by rewrite Hh1|].
  apply post_bind, post_lift.
  destruct (getitem d "TotalLoad"); [apply post_emit|]; simpl;
    (split; [done|]; split; [|done]); [|by exists cs1].
  eexists (cs1 ++ [_]). rewrite Hc1, <- app_assoc. split; [done|].
  apply Forall_app. split; [done|]. by repeat constructor.
Qed.

Lemma finish_post l d names start end_ title_ w :
  heap w !! l = Some d ->
  post (finish l names start end_ title_) w (fun r w' =>
    heap w' = heap w
    /\ (r = Ok () -> exists left right,
          to_datetime start = Ok left /\ to_datetime end_ = Ok right
          /\ canvas w' = canvas w ++ finish_calls d names left right title_)).
Proof.
  intros Hl. unfold finish.
  do 7 (apply post_bind, post_emit).
  apply post_bind, post_lift.
  destruct (to_datetime start) as [left|e]; [|done].
  apply post_bind, post_lift.
  destruct (to_datetime end_) as [right|e]; [|done].
  apply post_bind, post_emit.
  apply post_bind, (post_deref _ d); [done|].
  apply post_bind, post_lift.
  destruct (select d names) as [sel|e] eqn:Hsel; [|done].
  apply select_ok in Hsel as (Hi & _ & Hv & _).
  do 4 (apply post_bind, post_emit). apply post_emit. simpl.
  split; [done|]. intros _. exists left, right. do 2 (split; [done|]).
  unfold finish_calls, row_sums. rewrite Hi, Hv.
  by rewrite <- !app_assoc.
Qed.

Lemma plot_power_system_post df d names sf start end_ title_ plot_load w :
  heap w !! df = Some d ->
  post (plot_power_system df names sf start end_ title_ plot_load) w (fun r w' =>
    heap w ⊆ heap w'
    /\ (sf = None -> plot_load = true -> r <> Ok ())
    /\ (r = Ok () -> exists d' loads left right,
          prepared d sf start end_ = Ok d'
          /\ Forall (fun n => is_Some (assoc n (columns d'))) names
          /\ Forall (fun c => is_plot c = true) loads
          /\ to_datetime start = Ok left /\ to_datetime end_ = Ok right
          /\ canvas w' = canvas w
               ++ [rc_font "Helvetica Neue"; figure 12 6]
               ++ bands d' sf names (zeros (length (index d')))
               ++ loads
               ++ finish_calls d' names left right title_)).
Proof.
  intros Hdf. unfold plot_power_system.
  apply post_bind, post_emit, post_bind.
  eapply post_mono; [by apply (prepare_post df d)|].
  intros [l|e] w1 (Hc1 & Hs1 & H1); [|done].
  destruct H1 as (d' & Hprep & Hl).
  apply post_bind, post_emit, post_bind.
  eapply post_mono; [by apply (draw_stack_post l d')|].
  intros [[]|e] w2 (Hh2 & H2); [|by simpl in *; rewrite Hh2].
  destruct (H2 eq_refl) as (Hall & Hc2). simpl in Hh2, Hc2.
  apply post_bind.
  eapply post_mono; [apply (draw_load_post l d'); by rewrite Hh2|].
  intros [[]|e] w3 (Hh3 & (loads & Hc3 & Hloads) & Hnone).
  2:{ rewrite Hh3, Hh2. done. }
  eapply post_mono; [apply (finish_post l d'); by rewrite Hh3, Hh2|].
  intros r w4 (Hh4 & H4). rewrite Hh4, Hh3, Hh2. split; [done|]. split.
  { intros ? ?. by specialize (Hnone ltac:(done) ltac:(done)). }
  intros Hr. destruct (H4 Hr) as (left & right & Hleft & Hright & Hc4).
  exists d', loads, left, right. do 5 (split; [done|]).
  rewrite Hc4, Hc3, Hc2, Hc1. simpl. by rewrite <- !app_assoc.
Qed.

(** *** What the canvas holds after a completed call *)

Lemma plot_power_system_ok df d names sf start end_ title_ plot_load w w' :
  heap w !! df = Some d ->
  plot_power_system df names sf start end_ title_ plot_load w = (Ok (), w') ->
  exists d' loads left right,
    prepared d sf start end_ = Ok d'
    /\ Forall (fun n => is_Some (assoc n (columns d'))) names
    /\ Forall (fun c => is_plot c = true) loads
    /\ to_datetime start = Ok left /\ to_datetime end_ = Ok right
    /\ canvas w' = canvas w
         ++ [rc_font "Helvetica Neue"; figure 12 6]
         ++ bands d' sf names (zeros (length (index d')))
         ++ loads
         ++ finish_calls d' names left right title_.
Proof.
  intros Hdf Hrun.
  pose proof (plot_power_system_post df d names sf start end_ title_ plot_load w Hdf) as H.
  unfold post in H. rewrite Hrun in H. simpl in H. by apply H.
Qed.

Lemma filter_plots_nil (P : call -> bool) loads :
  (forall c, is_plot c = true -> P c = false) ->
  Forall (fun c => is_plot c = true) loads ->
  filter (fun c => P c = true) loads = [].
Proof.
  intros HP. induction 1 as [|c cs Hc _ IH]; [done|].
  rewrite filter_cons, IH. apply HP in Hc. rewrite Hc.
  by destruct (decide (false = true)).
Qed.

Lemma bands_fills d sf names : forall y,
  Forall (fun n => is_Some (assoc n (columns d))) names ->
  length (filter (fun c => is_fill c = true) (bands d sf names y)) = length names
  /\ forall i column col,
      names !! i = Some column -> assoc column (columns d) = Some col ->
      filter (fun c => is_fill c = true) (bands d sf names y) !! i
      = Some (fill_between (index d)
                (foldl vadd y (values d (take i names)))
                (vadd (foldl vadd y (values d (take i names))) col)
                (get colors column "#CCCCCC")
                (series_label sf (get danish_names column column) column)).
Proof.
  induction names as [|name names IH]; intros y Hall; [done|].
  apply Forall_cons in Hall as [[col0 Hcol0] Hall].
  destruct (IH (vadd y col0) Hall) as [Hlen Hnth].
  simpl. rewrite Hcol0. rewrite filter_cons_True by done.
  rewrite filter_cons_False by (simpl; done).
  split; [simpl; by rewrite Hlen|].
  intros [|i] column col Hi Hcol; simpl in Hi.
  - simplify_eq. by simpl.
  - simpl. rewrite (Hnth i column col Hi Hcol).
    unfold values. simpl. by rewrite Hcol0.
Qed.

Lemma bands_formatters d sf names : forall y,
  filter (fun c => is_formatter c = true) (bands d sf names y) = [].
Proof.
  induction names as [|name names IH]; intros y; [done|].
  simpl. destruct (assoc name (columns d)); [|done].
  rewrite !filter_cons_False by (simpl; done). apply IH.
Qed.

Lemma Qmult_1_r_eq (x : Q) : (x * 1)%Q = x.
Proof.
  destruct x as [n p]. unfold Qmult. simpl.
  by rewrite Z.mul_1_r, Pos.mul_1_r.
Qed.

Lemma scale_by_one_id (col : list Q) : map (fun x => x * 1)%Q col = col.
Proof. induction col as [|x col IH]; [done|]. simpl. by rewrite Qmult_1_r_eq, IH. Qed.

Lemma setitem_same d name col :
  NoDup (column_names d) -> assoc name (columns d) = Some col ->
  setitem d name col = d.
Proof.
  intros Hnd Hcol. unfold setitem.
  rewrite (proj2 (has_column_assoc d name)) by eauto.
  destruct d as [idx cols]. simpl in *. f_equal.
  unfold column_names in Hnd. simpl in Hnd.
  induction cols as [|[k v] cols IH]; [done|].
  simpl in *. apply NoDup_cons in Hnd as [Hk Hnd].
  destruct (decide (k = name)) as [->|Hne].
  - rewrite decide_True in Hcol by done. simplify_eq. f_equal.
    clear IH. induction cols as [|[k' v'] cols IH]; [done|].
    simpl in *. apply not_elem_of_cons in Hk as [Hk1 Hk2].
    apply NoDup_cons in Hnd as [_ Hnd].
    rewrite decide_False by done. f_equal. by apply IH.
  - rewrite decide_False in Hcol by done. f_equal. by apply IH.
Qed.

Lemma scaled_by_one items d :
  NoDup (column_names d) -> Forall (fun item => item.2 = 1%Q) items ->
  scaled (Some items) d = d.
Proof.
  intros Hnd Hall. unfold scaled. simpl.
  induction Hall as [|[tech factor] items Hone _ IH]; [done|].
  simpl in *. subst factor. unfold scale_one at 2. simpl.
  destruct (assoc tech (columns d)) as [col|] eqn:Hcol; [|done].
  rewrite (setitem_same d tech); [done|done|].
  rewrite Hcol. f_equal. symmetry. apply scale_by_one_id.
Qed.

Lemma baseline_S d names i column col :
  names !! i = Some column -> assoc column (columns d) = Some col ->
  baseline d names (S i) = vadd (baseline d names i) col.
Proof.
  intros Hi Hcol. unfold baseline, values.
  rewrite (take_S_r _ _ _ Hi), omap_app, foldl_app. simpl. by rewrite Hcol.
Qed.

(** *** The renderer on the sample table *)

Example plot_sample :
  canvas (plot_power_system 0 ["A"; "B"] (Some [("B", 2%Q)])
            (Some "2022-03-01") (Some "2022-03-01T12:30:00")
            "Danmarks elsystem" true (sample_world HOUR)).2
  = [rc_font "Helvetica Neue"; figure 12 6;
     fill_between [1646136000000000000%Z] [0%Q] [3%Q] "#CCCCCC" (Label "A" None);
     plot [1646136000000000000%Z] [3%Q] Solid None;
     fill_between [1646136000000000000%Z] [3%Q] [11%Q] "#CCCCCC"
       (Label "B" (Some 2%Q));
     plot [1646136000000000000%Z] [11%Q] Solid None;
     plot [1646136000000000000%Z] [9%Q] Dashed (Some (Label "Forbrug" None));
     title "Danmarks elsystem"; xlabel "Dato"; ylabel "Effekt (MW)"; grid;
     legend; xticks 45; tick_params;
     xlim (Timestamp 1646092800000000000) (Timestamp 1646137800000000000);
     ylim 0 (Some (1155 # 100)%Q); set_major_locator 7 8;
     set_major_formatter "%H:%M"; autofmt_xdate; tight_layout].
Proof. vm_compute. reflexivity. Qed.

(** *** The claims on the renderer *)

(** C7. The caller's table is never mutated: whatever the arguments and
    whether the call returns or raises, the table the caller passed is in
    the store afterwards exactly as it was before. *)
Theorem caller_table_not_mutated df d names sf start end_ title_ plot_load w :
  heap w !! df = Some d ->
  heap (plot_power_system df names sf start end_ title_ plot_load w).2 !! df
  = Some d.
Proof.
  intros Hdf.
  destruct (plot_power_system_post df d names sf start end_ title_ plot_load w Hdf)
    as [Hsub _].
  by eapply lookup_weaken.
Qed.

Lemma caller_table_not_mutated_witness :
  heap (plot_power_system 0 ["A"; "B"] (Some [("A", 2%Q)]) (Some "2022-03-01")
          None "Danmarks elsystem" true (sample_world HOUR)).2 !! 0%nat
  = Some (sample_table HOUR).
Proof. apply caller_table_not_mutated. vm_compute. reflexivity. Defined.

(** C8. Scale factors that are all 1.0 leave the table that is drawn as
    the unscaled input: scaling changes no cell, and the table [df] holds
    after lines 110 to 120 is the one the same call without scale factors
    draws. *)
Theorem unit_scale_factors_change_nothing df d items start end_ w :
  NoDup (column_names d) ->
  Forall (fun item => item.2 = 1%Q) items ->
  heap w !! df = Some d ->
  scaled (Some items) d = d
  /\ match prepare df (Some items) start end_ w with
     | (Ok l, w') =>
         exists d', heap w' !! l = Some d' /\ prepared d None start end_ = Ok d'
     | (Raise e, _) => prepared d None start end_ = Raise e
     end.
Proof.
  intros Hnd Hone Hdf.
  pose proof (scaled_by_one items d Hnd Hone) as Hs. split; [done|].
  pose proof (prepare_post df d (Some items) start end_ w Hdf) as H.
  unfold post in H. destruct (prepare _ _ _ _ w) as [[l|e] w'].
  all: simpl in H; destruct H as (_ & _ & H); revert H.
  all: unfold prepared; rewrite Hs; unfold scaled; simpl.
  - intros (d' & ? & ?). eauto.
  - done.
Qed.

Lemma unit_scale_factors_change_nothing_witness :
  scaled (Some [("A", 1%Q); ("TotalLoad", 1%Q)]) (sample_table HOUR)
  = sample_table HOUR.
Proof.
  refine (proj1 (unit_scale_factors_change_nothing 0
            (sample_table HOUR) [("A", 1%Q); ("TotalLoad", 1%Q)] None None
            (sample_world HOUR) _ _ _)).
  - apply (bool_decide_unpack _). vm_compute. exact I.
  - repeat constructor.
  - vm_compute. reflexivity.
Defined.

(** C5. The stack is cumulative in the order of [columns_to_plot]: in a
    completed call there is one filled band per listed column, in that
    order; the band of a column runs from the baseline (the row-wise sum
    of the columns listed before it, zero for the first) to the baseline
    plus the column, and that top is the baseline of the next band. *)
Theorem bands_stack_cumulatively df d names sf start end_ title_ plot_load w w' :
  heap w !! df = Some d ->
  plot_power_system df names sf start end_ title_ plot_load w = (Ok (), w') ->
  exists d' cs,
    prepared d sf start end_ = Ok d'
    /\ canvas w' = canvas w ++ cs
    /\ length (filter (fun c => is_fill c = true) cs) = length names
    /\ baseline d' names 0 = zeros (length (index d'))
    /\ forall i column col,
        names !! i = Some column -> assoc column (columns d') = Some col ->
        (exists color lab,
           filter (fun c => is_fill c = true) cs !! i
           = Some (fill_between (index d') (baseline d' names i)
                     (vadd (baseline d' names i) col) color lab))
        /\ baseline d' names (S i) = vadd (baseline d' names i) col.
Proof.
  intros Hdf Hrun.
  destruct (plot_power_system_ok _ _ _ _ _ _ _ _ _ _ Hdf Hrun)
    as (d' & loads & left & right & Hprep & Hall & Hloads & _ & _ & Hc).
  exists d'. eexists. split; [done|]. split; [exact Hc|].
  destruct (bands_fills d' sf names (zeros (length (index d'))) Hall) as [Hlen Hnth].
  assert (forall l, filter (fun c => is_fill c = true)
            ([rc_font "Helvetica Neue"; figure 12 6] ++ l ++ loads
             ++ finish_calls d' names left right title_)
          = filter (fun c => is_fill c = true) l) as Hf.
  { intros l. rewrite !filter_app.
    rewrite (filter_plots_nil is_fill loads) by (done || by intros []).
    replace (filter _ (finish_calls _ _ _ _ _)) with (@nil call) by done.
    replace (filter _ [_; _]) with (@nil call) by done.
    by rewrite !app_nil_r. }
  rewrite Hf. split; [done|]. split; [done|].
  intros i column col Hi Hcol. split; [|by apply (baseline_S _ _ _ column)].
  do 2 eexists. by apply Hnth.
Qed.

Lemma bands_stack_cumulatively_witness :
  exists x color lab color' lab',
    filter (fun c => is_fill c = true)
      (canvas (plot_power_system 0 ["A"; "B"] (Some []) (Some "2022-03-01T12:00:00")
                 (Some "2022-03-01T12:00:00") "Danmarks elsystem" true
                 (sample_world HOUR)).2)
    = [fill_between x [0%Q] [3%Q] color lab; fill_between x [3%Q] [7%Q] color' lab'].
Proof.
  destruct (bands_stack_cumulatively 0 (sample_table HOUR) ["A"; "B"] (Some [])
              (Some "2022-03-01T12:00:00") (Some "2022-03-01T12:00:00")
              "Danmarks elsystem" true (sample_world HOUR)
              (plot_power_system 0 ["A"; "B"] (Some []) (Some "2022-03-01T12:00:00")
                 (Some "2022-03-01T12:00:00") "Danmarks elsystem" true
                 (sample_world HOUR)).2)
    as (d' & cs & Hprep & Hc & Hlen & _ & Hnth).
  { vm_compute. reflexivity. }
  { vm_compute. reflexivity. }
  assert (d' = mkFrame [1646136000000000000%Z]
                 [("A", [3%Q]); ("B", [4%Q]); ("TotalLoad", [9%Q])]) as ->.
  { vm_compute in Hprep. by injection Hprep as <-. }
  rewrite Hc. change (canvas (sample_world HOUR) ++ cs) with cs.
  destruct (Hnth 0%nat "A" [3%Q] eq_refl eq_refl) as [(c0 & l0 & H0) _].
  destruct (Hnth 1%nat "B" [4%Q] eq_refl eq_refl) as [(c1 & l1 & H1) _].
  clear Hc Hprep Hnth.
  destruct (filter _ cs) as [|f0 [|f1 [|f2 fs]]];
    [discriminate H0 | discriminate H1 | | discriminate Hlen].
  injection H0 as ->. injection H1 as ->. by do 5 eexists.
Defined.

Lemma bands_xlims d sf names : forall y,
  filter (fun c => is_xlim c = true) (bands d sf names y) = [].
Proof.
  induction names as [|name names IH]; intros y; [done|].
  simpl. destruct (assoc name (columns d)); [|done].
  rewrite !filter_cons_False by (simpl; done). apply IH.
Qed.




(** C2, as the code has it. A completed call sets one date format,
    chosen from the span between the first and the last timestamp of the
    table that is drawn: a span of 12 hours gives hour:minute, a span of
    20 days gives day-month-year, a span of 400 days gives year-month. *)
Theorem date_format_follows_span df d names sf start end_ title_ plot_load w w' :
  heap w !! df = Some d ->
  plot_power_system df names sf start end_ title_ plot_load w = (Ok (), w') ->
  exists d' cs fmt,
    prepared d sf start end_ = Ok d'
    /\ canvas w' = canvas w ++ cs
    /\ filter (fun c => is_formatter c = true) cs = [set_major_formatter fmt]
    /\ fmt = date_format_of (time_span d')
    /\ (time_span d' = Some (12 * HOUR)%Z -> fmt = "%H:%M")
    /\ (time_span d' = Some (timedelta 20) -> fmt = "%d-%m-%Y")
    /\ (time_span d' = Some (timedelta 400) -> fmt = "%Y-%m").
Proof.
  intros Hdf Hrun.
  destruct (plot_power_system_ok _ _ _ _ _ _ _ _ _ _ Hdf Hrun)
    as (d' & loads & left & right & Hprep & _ & Hloads & _ & _ & Hc).
  exists d'. do 2 eexists. split; [done|]. split; [exact Hc|].
  split; [|split; [reflexivity|]].
  - rewrite !filter_app, bands_formatters.
    rewrite (filter_plots_nil is_formatter loads) by (done || by intros []).
    done.
  - repeat split; by intros ->.
Qed.

Lemma date_format_follows_span_witness :
  exists d' cs,
    prepared (sample_table (timedelta 20)) (Some []) None None = Ok d'
    /\ canvas (plot_power_system 0 ["A"; "B"] (Some []) None None
                 "Danmarks elsystem" true (sample_world (timedelta 20))).2
       = canvas (sample_world (timedelta 20)) ++ cs
    /\ filter (fun c => is_formatter c = true) cs
       = [set_major_formatter "%d-%m-%Y"].
Proof.
  destruct (date_format_follows_span 0 (sample_table (timedelta 20)) ["A"; "B"]
              (Some []) None None "Danmarks elsystem" true
              (sample_world (timedelta 20))
              (plot_power_system 0 ["A"; "B"] (Some []) None None
                 "Danmarks elsystem" true (sample_world (timedelta 20))).2)
    as (d' & cs & fmt & Hprep & Hc & Hf & _ & _ & H20 & _).
  { vm_compute. reflexivity. }
  { vm_compute. reflexivity. }
  exists d', cs. split; [exact Hprep|]. split; [exact Hc|].
  rewrite Hf. f_equal. f_equal. apply H20.
  injection Hprep as <-. vm_compute. reflexivity.
Defined.

(** C2 as stated fails at 20 days: the table spans exactly 20 days and
    the format set is day-month-year, not day-month hour:minute. *)
Lemma twenty_days_counterexample :
  time_span (sample_table (timedelta 20)) = Some (timedelta 20)
  /\ (set_major_formatter "%d-%m-%Y"
      ∈ canvas (plot_power_system 0 ["A"; "B"] (Some []) None None
                  "Danmarks elsystem" true (sample_world (timedelta 20))).2)
  /\ (set_major_formatter "%d-%m %H:%M"
      ∉ canvas (plot_power_system 0 ["A"; "B"] (Some []) None None
                  "Danmarks elsystem" true (sample_world (timedelta 20))).2).
Proof.
  vm_compute canvas. split; [by vm_compute|]. split; [set_solver|].
  intros H. repeat (apply elem_of_cons in H as [H|H]; [discriminate H|]).
  by apply elem_of_nil in H.
Qed.

(** C1, on the code. With the load overlay enabled and no scale-factor
    mapping passed, the membership test of line 143 is made on [None]
    and the call ends in a [TypeError] once the stack is drawn; the same
    call with an empty mapping completes and draws the unscaled overlay. *)
Theorem load_overlay_without_mapping_raises :
  (plot_power_system 0 ["A"; "B"] None None None "Danmarks elsystem" true
     (sample_world HOUR)).1
  = Raise (Exn TypeError "argument of type 'NoneType' is not iterable")
  /\ (plot_power_system 0 ["A"; "B"] (Some []) None None "Danmarks elsystem" true
        (sample_world HOUR)).1 = Ok ()
  /\ (plot [1646136000000000000%Z; 1646139600000000000%Z] [9%Q; 8%Q] Dashed
           (Some (Label "Forbrug" None))
      ∈ canvas (plot_power_system 0 ["A"; "B"] (Some []) None None
                  "Danmarks elsystem" true (sample_world HOUR)).2).
Proof.
  split; [by vm_compute|]. split; [by vm_compute|].
  vm_compute canvas. set_solver.
Qed.

(** No call with the overlay enabled and the mapping omitted completes. *)
Lemma load_overlay_without_mapping_never_completes
    df d names start end_ title_ w :
  heap w !! df = Some d ->
  (plot_power_system df names None start end_ title_ true w).1 <> Ok ().
Proof.
  intros Hdf.
  destruct (plot_power_system_post df d names None start end_ title_ true w Hdf)
    as (_ & H & _).
  by apply H.
Qed.

End PlotFacts.

(** ** More on the loader *)

Module LoaderMore.
Import Loader LoaderFacts.

Lemma raise_for_status_ok url response :
  ~ (400 <= status_code response < 600)%Z ->
  raise_for_status url response = Ok ().
Proof.
  intros Hs. unfold raise_for_status.
  destruct (Z.leb_spec 400 (status_code response)),
           (Z.ltb_spec (status_code response) 500),
           (Z.leb_spec 500 (status_code response)),
           (Z.ltb_spec (status_code response) 600); simpl; try done; lia.
Qed.

(** When the exchange gets as far as a decoded body, the call is what
    [process] makes of it, failures wrapped. *)
Lemma load_power_data_body get start_date end_date response data :
  get (api_url start_date end_date) = Ok response ->
  ~ (400 <= status_code response < 600)%Z ->
  json response = Ok data ->
  load_power_data get start_date end_date
  = match process data with
    | Ok t => Ok t
    | Raise e => Raise (if is_RequestException e then FetchError e
                        else ProcessingError e)
    end.
Proof.
  intros Hget Hs Hjson. unfold load_power_data. cbv zeta.
  rewrite Hget. cbn [mbind result_bind]. rewrite (raise_for_status_ok _ _ Hs).
  cbn [mbind result_bind]. rewrite Hjson. cbn [mbind result_bind].
  destruct (process data) as [t|e]; [done|]. by destruct (is_RequestException e).
Qed.

Lemma first_seen_elem l x : x ∈ first_seen l <-> x ∈ l.
Proof.
  unfold first_seen.
  by rewrite elem_of_reverse, elem_of_remove_dups, elem_of_reverse.
Qed.

Lemma elem_of_concat {A} (x : A) (ls : list (list A)) :
  x ∈ concat ls <-> exists l, x ∈ l /\ l ∈ ls.
Proof.
  induction ls as [|l ls IH]; simpl.
  - split; [by intros ?%elem_of_nil | by intros (? & _ & ?%elem_of_nil)].
  - rewrite elem_of_app, IH. split.
    + intros [?|(l' & ? & ?)]; [exists l; split; [done|left] |
                                 exists l'; split; [done|by right]].
    + intros (l' & Hx & [->|?]%elem_of_cons); [by left|right; eauto].
Qed.

Lemma field_met rs k :
  k ∈ first_seen (concat (map (fun r : jobject => r.*1) rs))
  <-> exists r, r ∈ rs /\ is_Some (assoc k r).
Proof.
  rewrite first_seen_elem, elem_of_concat. split.
  - intros (ks & Hk & (r & -> & Hr)%list_elem_of_fmap).
    exists r. split; [done|]. by apply assoc_is_Some.
  - intros (r & Hr & Hk). exists (r.*1). split; [by apply assoc_is_Some|].
    apply list_elem_of_fmap. eauto.
Qed.

Lemma assoc_named_None {A} (g : string -> A) names k :
  k ∉ names -> assoc k (map (fun n => (n, g n)) names) = None.
Proof.
  intros Hk. apply eq_None_not_Some. rewrite assoc_is_Some.
  rewrite <- list_fmap_compose. by rewrite list_fmap_id.
Qed.

(** X1. A body that decodes and holds [records], but in which no record
    has one of the three fields [HourUTC], [PriceArea] and [HourDK] (an
    empty list of records is one), makes the loader fail: the [KeyError]
    of [drop] or of [groupby] comes out wrapped as "Error processing
    data". *)
Theorem missing_key_field_fails get start_date end_date response data rs k :
  get (api_url start_date end_date) = Ok response ->
  ~ (400 <= status_code response < 600)%Z ->
  json response = Ok data ->
  data !! "records" = Some rs ->
  k ∈ key_fields ->
  (forall r, r ∈ rs -> assoc k r = None) ->
  exists msg,
    load_power_data get start_date end_date
    = Raise (ProcessingError (Exn KeyError msg)).
Proof.
  intros Hget Hs Hjson Hrec Hk Hnone.
  rewrite (load_power_data_body _ _ _ _ _ Hget Hs Hjson).
  assert (k ∉ first_seen (concat (map (fun r : jobject => r.*1) rs))) as Hnot.
  { rewrite field_met. intros (r & Hr & Hsome).
    rewrite (Hnone r Hr) in Hsome. by destruct Hsome. }
  enough (exists msg, process data = Raise (Exn KeyError msg)) as [msg ->]
    by (by exists msg).
  unfold process. rewrite Hrec. cbn [mbind result_bind]. cbv zeta.
  unfold drop.
  assert (column_names (fillna (json_normalize rs))
          = first_seen (concat (map (fun r : jobject => r.*1) rs))) as Hnames.
  { unfold column_names. rewrite fillna_json_normalize_columns.
    rewrite <- list_fmap_compose. apply list_fmap_id. }
  destruct (filter _ ["HourUTC"; "PriceArea"]) as [|missing ?] eqn:Hmiss;
    [|by eexists].
  cbn [mbind result_bind].
  assert (k = "HourDK") as ->.
  { unfold key_fields in Hk.
    assert (Forall (fun l => l ∈ column_names (fillna (json_normalize rs)))
                   ["HourUTC"; "PriceArea"]) as Hin.
    { apply Forall_forall. intros l Hl.
      destruct (decide (l ∈ column_names (fillna (json_normalize rs)))) as [|Hn];
        [done|].
      assert (l ∈ filter (fun l => l ∉ column_names (fillna (json_normalize rs)))
                         ["HourUTC"; "PriceArea"]) as Hf
        by (by apply list_elem_of_filter).
      rewrite Hmiss in Hf. by apply elem_of_nil in Hf. }
    rewrite Hnames in Hin.
    apply Forall_cons in Hin as [H1 [H2 _]%Forall_cons].
    repeat (apply elem_of_cons in Hk as [->|Hk]); try done.
    by apply elem_of_nil in Hk. }
  unfold groupby_sum. rewrite getitem_assoc. cbn [columns].
  assert (assoc "HourDK"
            (filter (fun nc : string * list cell => nc.1 ∉ ["HourUTC"; "PriceArea"])
               (columns (fillna (json_normalize rs)))) = None) as ->.
  { apply eq_None_not_Some. rewrite assoc_is_Some.
    intros (nc & Heq & [_ Hnc]%list_elem_of_filter)%list_elem_of_fmap.
    apply Hnot. rewrite <- Hnames, Heq. apply list_elem_of_fmap. eauto. }
  by eexists.
Qed.

Lemma missing_key_field_fails_witness :
  exists msg,
    load_power_data (serving []) "2022-03-01" "2022-03-02"
    = Raise (ProcessingError (Exn KeyError msg)).
Proof.
  apply (missing_key_field_fails (serving []) "2022-03-01" "2022-03-02"
           (mkResponse 200 "OK" (Ok {[ "records" := [] ]}))
           {[ "records" := [] ]} [] "HourUTC").
  - reflexivity.
  - simpl. lia.
  - reflexivity.
  - vm_compute. reflexivity.
  - unfold key_fields. apply (bool_decide_unpack _). vm_compute. exact I.
  - intros r Hr. by apply elem_of_nil in Hr.
Defined.

Lemma length_remove_dups_le {A} `{EqDecision A} (l : list A) :
  (length (remove_dups l) <= length l)%nat.
Proof.
  induction l as [|x l IH]; simpl; [done|].
  destruct (decide_rel _ x l); simpl in *; lia.
Qed.

Lemma length_omap_le {A B} (f : A -> option B) (l : list A) :
  (length (omap f l) <= length l)%nat.
Proof.
  induction l as [|x l IH]; [done|].
  change (omap f (x :: l)) with (match f x with Some y => y :: omap f l
                                 | None => omap f l end).
  destruct (f x); simpl; lia.
Qed.

Lemma length_hours_of rs : (length (hours_of rs) <= length rs)%nat.
Proof.
  unfold hours_of. rewrite merge_sort_Permutation.
  etrans; [apply length_remove_dups_le | apply length_omap_le].
Qed.

Lemma process_ok_nonempty data rs t :
  data !! "records" = Some rs -> process data = Ok t -> rs <> [].
Proof.
  intros Hrec Hp ->. unfold process in Hp. rewrite Hrec in Hp.
  vm_compute in Hp. discriminate Hp.
Qed.

(** X2. A table that is returned has at least one row, and no more rows
    than records were received. *)
Theorem rows_between_one_and_records get start_date end_date t rs :
  load_power_data get start_date end_date = Ok t ->
  received get start_date end_date = Some rs ->
  (0 < length (index t) <= length rs)%nat.
Proof.
  intros Hload Hrec.
  destruct (load_power_data_received _ _ _ _ _ Hload Hrec) as (data & Hd & Hp).
  destruct (process_ok _ _ _ Hd Hp) as (Hhours & Hidx & _).
  apply Forall2_length in Hidx. rewrite <- Hidx.
  split; [|apply length_hours_of].
  pose proof (process_ok_nonempty _ _ _ Hd Hp) as Hne.
  destruct rs as [|r rs]; [done|].
  apply Forall_cons in Hhours as [[h Hh] _].
  assert (h ∈ hours_of (r :: rs)) as Hin.
  { apply hours_of_elem. exists r. split; [left|done]. }
  destruct (hours_of (r :: rs)); [by apply elem_of_nil in Hin|simpl; lia].
Qed.

Lemma rows_between_one_and_records_witness :
  exists t,
    load_power_data (serving two_hours) "2022-03-01" "2022-03-02" = Ok t
    /\ (0 < length (index t) <= length two_hours)%nat.
Proof.
  eexists. split; [vm_compute; reflexivity|].
  apply (rows_between_one_and_records (serving two_hours)
           "2022-03-01" "2022-03-02").
  - vm_compute. reflexivity.
  - vm_compute. reflexivity.
Defined.

(** *** Sums up to equality of rationals *)

Lemma foldl_Qplus_shift (l : list Q) : forall a : Q,
  (foldl Qplus a l == a + foldl Qplus 0 l)%Q.
Proof.
  induction l as [|y l IH]; intros a; simpl; [ring|].
  rewrite (IH (a + y)%Q), (IH (0 + y)%Q). ring.
Qed.

Lemma total_cons (x : Q) (l : list Q) : (total (x :: l) == x + total l)%Q.
Proof. unfold total. simpl. rewrite foldl_Qplus_shift. ring. Qed.

Lemma total_Permutation (l k : list Q) : l ≡ₚ k -> (total l == total k)%Q.
Proof.
  induction 1 as [|x l k _ IH|x y l|l k m _ IH1 _ IH2].
  - reflexivity.
  - by rewrite !total_cons, IH.
  - rewrite !total_cons. ring.
  - by rewrite IH1.
Qed.

Lemma group_total_Permutation rs rs' h name :
  rs ≡ₚ rs' -> (group_total rs h name == group_total rs' h name)%Q.
Proof.
  intros Hp. unfold group_total. apply total_Permutation.
  apply Permutation_map. by rewrite Hp.
Qed.

Lemma hours_of_Permutation rs rs' : rs ≡ₚ rs' -> hours_of rs = hours_of rs'.
Proof.
  intros Hp. unfold hours_of.
  apply (Sorted_unique String.le);
    [apply Sorted_merge_sort; apply _ | apply Sorted_merge_sort; apply _ |].
  rewrite !merge_sort_Permutation.
  apply NoDup_Permutation; [apply NoDup_remove_dups..|].
  intros h. rewrite !elem_of_remove_dups. by rewrite Hp.
Qed.

Lemma to_datetime_labels_functional hs ts ts' :
  Forall2 (fun h t => to_datetime_label h = Ok t) hs ts ->
  Forall2 (fun h t => to_datetime_label h = Ok t) hs ts' ->
  ts = ts'.
Proof.
  intros H. revert ts'. induction H as [|h t hs ts Ht _ IH]; intros ts' H'.
  - by apply Forall2_nil_inv_l in H'.
  - apply Forall2_cons_inv_l in H' as (t' & ts'' & Ht' & H'' & ->).
    f_equal; [congruence|by apply IH].
Qed.



(** *** Nothing is lost in the aggregation *)

Lemma total_map_ext {A} (g k : A -> Q) (l : list A) :
  (forall x, (g x == k x)%Q) -> (total (map g l) == total (map k l))%Q.
Proof.
  intros Hgk. induction l as [|x l IH]; [reflexivity|].
  simpl. by rewrite !total_cons, IH, Hgk.
Qed.

Lemma total_map_plus {A} (g k : A -> Q) (l : list A) :
  (total (map (fun x => g x + k x) l) == total (map g l) + total (map k l))%Q.
Proof.
  induction l as [|x l IH]; [reflexivity|].
  simpl. rewrite !total_cons, IH. ring.
Qed.

Lemma total_map_zero {A} (l : list A) : (total (map (fun _ => 0) l) == 0)%Q.
Proof.
  induction l as [|x l IH]; [reflexivity|]. simpl. rewrite total_cons, IH. ring.
Qed.

Lemma total_only_at (h0 : string) (x : Q) (hs : list string) :
  NoDup hs ->
  (total (map (fun h => if decide (h0 = h) then x else 0) hs)
   == if decide (h0 ∈ hs) then x else 0)%Q.
Proof.
  induction 1 as [|h hs Hh _ IH]; [reflexivity|].
  simpl. rewrite total_cons, IH.
  destruct (decide (h0 = h)) as [->|Hne].
  - rewrite decide_False by done. rewrite decide_True by left. ring.
  - destruct (decide (h0 ∈ hs)).
    + rewrite decide_True by (by right). ring.
    + rewrite decide_False; [ring|]. by intros [?|?]%elem_of_cons.
Qed.

Lemma totals_partition (f : jobject -> Q) (hs : list string) (rs : list jobject) :
  NoDup hs ->
  (forall r, r ∈ rs -> exists h, h ∈ hs /\ hour_of r = Some h) ->
  (total (map (fun h => total (map f (filter (fun r => hour_of r = Some h) rs))) hs)
   == total (map f rs))%Q.
Proof.
  intros Hnd. induction rs as [|r rs IH]; intros Hall.
  - simpl. apply total_map_zero.
  - destruct (Hall r ltac:(left)) as (h0 & Hh0 & Hr).
    rewrite (total_map_ext _
      (fun h => (if decide (h0 = h) then f r else 0)
                + total (map f (filter (fun r => hour_of r = Some h) rs)))%Q).
    + rewrite total_map_plus, (total_only_at _ _ _ Hnd).
      rewrite decide_True by done.
      rewrite IH by (intros r' Hr'; apply Hall; by right).
      simpl. by rewrite total_cons.
    + intros h. rewrite filter_cons, Hr.
      destruct (decide (h0 = h)) as [->|Hne].
      * rewrite decide_True by done. simpl. by rewrite total_cons.
      * rewrite decide_False by congruence. ring.
Qed.



(** *** The columns of the table *)

Lemma loaded_column_names data rs t :
  data !! "records" = Some rs -> process data = Ok t ->
  column_names t = measure_names rs.
Proof.
  intros Hd Hp. destruct (process_ok _ _ _ Hd Hp) as (_ & _ & Hcols).
  unfold column_names. rewrite Hcols, <- list_fmap_compose.
  by rewrite list_fmap_id.
Qed.

(** X5. The columns of a returned table are the fields met in at least
    one record, but for [HourUTC], [PriceArea] and [HourDK], each once: a
    field that only some records carry is a column, the two dropped
    fields and the group key never are. *)
Theorem columns_are_the_measured_fields get start_date end_date t rs :
  load_power_data get start_date end_date = Ok t ->
  received get start_date end_date = Some rs ->
  NoDup (column_names t)
  /\ forall n, n ∈ column_names t
               <-> (exists r, r ∈ rs /\ is_Some (assoc n r)) /\ n ∉ key_fields.
Proof.
  intros Hload Hrec.
  destruct (load_power_data_received _ _ _ _ _ Hload Hrec) as (data & Hd & Hp).
  rewrite (loaded_column_names _ _ _ Hd Hp). unfold measure_names. split.
  - apply NoDup_filter. unfold first_seen.
    rewrite reverse_Permutation. apply NoDup_remove_dups.
  - intros n. rewrite list_elem_of_filter, field_met. tauto.
Qed.

Lemma columns_are_the_measured_fields_witness :
  exists t,
    load_power_data (serving two_hours) "2022-03-01" "2022-03-02" = Ok t
    /\ NoDup (column_names t)
    /\ forall n, n ∈ column_names t
                 <-> (exists r, r ∈ two_hours /\ is_Some (assoc n r))
                     /\ n ∉ key_fields.
Proof.
  eexists. split; [vm_compute; reflexivity|].
  apply (columns_are_the_measured_fields (serving two_hours)
           "2022-03-01" "2022-03-02").
  - vm_compute. reflexivity.
  - vm_compute. reflexivity.
Defined.

End LoaderMore.

(** ** More on the renderer *)

Module PlotMore.
Import Plot PlotFacts.

(** *** Each phase as an equation *)

Lemma select_raise d names e :
  select d names = Raise e ->
  exists done_ name rest,
    names = done_ ++ name :: rest
    /\ Forall (fun n => is_Some (assoc n (columns d))) done_
    /\ assoc name (columns d) = None
    /\ e = Exn KeyError ("'" +:+ name +:+ "'").
Proof.
  unfold select.
  destruct (for_each _ names) as [cols|e'] eqn:Hcols; [discriminate|].
  simpl. intros [= ->].
  induction names as [|n names IH]; [discriminate|].
  simpl in Hcols. rewrite getitem_assoc in Hcols.
  destruct (assoc n (columns d)) as [col|] eqn:Hn.
  - simpl in Hcols.
    destruct (for_each _ names) as [cols|e'] eqn:Hrest; [discriminate|].
    simpl in Hcols. injection Hcols as ->.
    destruct (IH eq_refl) as (done_ & name & rest & -> & Hdone & Hname & ->).
    exists (n :: done_), name, rest. repeat split; try done.
    constructor; eauto.
  - simpl in Hcols. injection Hcols as <-.
    by exists [], n, names.
Qed.

Lemma draw_stack_run l d names sf w :
  heap w !! l = Some d ->
  draw_stack l names sf w
  = match select d names with
    | Ok _ => (Ok (), mkWorld (heap w)
                        (canvas w ++ bands d sf names (zeros (length (index d)))))
    | Raise e => (Raise e, w)
    end.
Proof.
  intros Hl. unfold draw_stack. unfold mbind at 1, M_bind at 1, deref.
  rewrite Hl. unfold mbind at 1, M_bind at 1, lift.
  destruct (select d names) as [sel|e] eqn:Hsel; [|done].
  apply select_ok in Hsel as (_ & Hn & _ & Hall).
  unfold mbind, M_bind. rewrite Hn, (stack_columns_run _ d) by done. done.
Qed.

Lemma draw_load_run l d sf plot_load w :
  heap w !! l = Some d ->
  draw_load l sf plot_load w
  = match overlay d sf plot_load with
    | Ok loads => (Ok (), mkWorld (heap w) (canvas w ++ loads))
    | Raise e => (Raise e, w)
    end.
Proof.
  intros Hl. unfold draw_load, overlay.
  destruct plot_load.
  2:{ unfold mbind, M_bind, mret, M_ret. by rewrite app_nil_r, world_eta. }
  destruct sf as [items|]; [|done].
  unfold contains, mbind, M_bind, mret, M_ret, deref, lift, emit, getitem.
  cbn [option_bind].
  destruct (assoc "TotalLoad" items) as [factor|];
    cbn [bool_decide decide_rel is_Some_dec negb fst snd heap canvas]; rewrite Hl;
    by destruct (assoc "TotalLoad" (columns d)).
Qed.

Lemma finish_run l d names sel start end_ title_ w :
  heap w !! l = Some d -> select d names = Ok sel ->
  finish l names start end_ title_ w
  = match to_datetime start, to_datetime end_ with
    | Ok lo, Ok hi =>
        (Ok (), mkWorld (heap w)
                  (canvas w ++ finish_calls d names lo hi title_))
    | Raise e, _ | Ok _, Raise e =>
        (Raise e, mkWorld (heap w)
                    (canvas w ++ [title title_; xlabel "Dato";
                                  ylabel "Effekt (MW)"; grid; legend; xticks 45;
                                  tick_params]))
    end.
Proof.
  intros Hl Hsel. unfold finish.
  unfold mbind, M_bind, emit, lift, deref. simpl.
  destruct (to_datetime start) as [lo|e]; [|by rewrite <- !app_assoc].
  destruct (to_datetime end_) as [hi|e]; [|by rewrite <- !app_assoc].
  simpl. rewrite Hl, Hsel. simpl.
  apply select_ok in Hsel as (Hi & _ & Hv & _).
  unfold finish_calls, row_sums. rewrite Hi, Hv. by rewrite <- !app_assoc.
Qed.

(** *** The whole call as a function of the table *)

Lemma plot_power_system_run df d names sf start end_ title_ plot_load w :
  heap w !! df = Some d ->
  (plot_power_system df names sf start end_ title_ plot_load w).1
  = (render d names sf start end_ title_ plot_load).1
  /\ canvas (plot_power_system df names sf start end_ title_ plot_load w).2
     = canvas w ++ (render d names sf start end_ title_ plot_load).2.
Proof.
  intros Hdf.
  change (post (plot_power_system df names sf start end_ title_ plot_load) w
            (fun r w' =>
               r = (render d names sf start end_ title_ plot_load).1
               /\ canvas w' = canvas w
                    ++ (render d names sf start end_ title_ plot_load).2)).
  unfold plot_power_system, render.
  apply post_bind, post_emit, post_bind.
  eapply post_mono; [by apply (prepare_post df d)|].
  intros [l|e] w1 (Hc1 & _ & H1).
  2:{ rewrite H1. simpl in Hc1. by rewrite Hc1. }
  destruct H1 as (d' & -> & Hl). simpl in Hc1.
  apply post_bind, post_emit, post_bind. unfold post at 1.
  rewrite (draw_stack_run l d') by done.
  destruct (select d' names) as [sel|e] eqn:Hsel.
  2:{ simpl. by rewrite Hc1, <- app_assoc. }
  cbn [fst snd]. apply post_bind. unfold post at 1.
  rewrite (draw_load_run l d') by done.
  destruct (overlay d' sf plot_load) as [loads|e].
  2:{ simpl. by rewrite Hc1, <- !app_assoc. }
  cbn [fst snd]. unfold post.
  rewrite (finish_run l d' names sel) by done.
  destruct (to_datetime start) as [lo|e], (to_datetime end_) as [hi|e'];
    simpl; by rewrite Hc1, <- !app_assoc.
Qed.

(** *** What scaling and slicing keep *)

Lemma assoc_replace_other {V} name (v : V) cols n :
  n ≠ name ->
  assoc n (map (fun nc => if decide (nc.1 = name) then (name, v) else nc) cols)
  = assoc n cols.
Proof.
  intros Hn. induction cols as [|[k x] cols IH]; [done|]. simpl.
  destruct (decide (k = name)) as [->|Hk]; simpl.
  - by rewrite !decide_False by done.
  - by rewrite IH.
Qed.

Lemma assoc_replace_same {V} name (v : V) cols :
  is_Some (assoc name cols) ->
  assoc name (map (fun nc => if decide (nc.1 = name) then (name, v) else nc) cols)
  = Some v.
Proof.
  induction cols as [|[k x] cols IH]; simpl; [by intros [? ?]|].
  destruct (decide (name = k)) as [->|Hk]; simpl.
  - intros _. by rewrite !decide_True by done.
  - intros Hs. rewrite decide_False by done. simpl.
    rewrite decide_False by done. by apply IH.
Qed.

Lemma names_replace {V} name (v : V) (cols : list (string * V)) :
  (map (fun nc => if decide (nc.1 = name) then (name, v) else nc) cols).*1
  = cols.*1.
Proof.
  induction cols as [|[k x] cols IH]; [done|].
  cbn [map]. rewrite !fmap_cons, IH. cbn [fst].
  by destruct (decide (k = name)) as [->|].
Qed.

Lemma scale_one_index d item : index (scale_one d item) = index d.
Proof.
  unfold scale_one, setitem.
  destruct (assoc item.1 (columns d)); [|done]. by destruct (has_column d item.1).
Qed.

Lemma scale_one_names d item :
  column_names (scale_one d item) = column_names d.
Proof.
  unfold scale_one. destruct (assoc item.1 (columns d)) as [col|] eqn:Hc; [|done].
  unfold setitem. rewrite (proj2 (has_column_assoc d item.1)) by eauto.
  apply names_replace.
Qed.

Lemma scale_one_assoc d tech factor n :
  assoc n (columns (scale_one d (tech, factor)))
  = if decide (n = tech)
    then map (fun x => x * factor)%Q <$> assoc n (columns d)
    else assoc n (columns d).
Proof.
  unfold scale_one. cbn [fst snd].
  destruct (assoc tech (columns d)) as [col|] eqn:Hc.
  - unfold setitem. rewrite (proj2 (has_column_assoc d tech)) by eauto.
    cbn [columns]. destruct (decide (n = tech)) as [->|Hn].
    + rewrite assoc_replace_same by eauto. by rewrite Hc.
    + by rewrite assoc_replace_other.
  - destruct (decide (n = tech)) as [->|Hn]; [by rewrite Hc|done].
Qed.

Lemma scale_one_well_formed d item :
  well_formed d -> well_formed (scale_one d item).
Proof.
  unfold well_formed, scale_one. intros Hwf.
  destruct (assoc item.1 (columns d)) as [col|] eqn:Hc; [|done].
  unfold setitem. rewrite (proj2 (has_column_assoc d item.1)) by eauto.
  cbn [index columns].
  assert (length col = length (index d)) as Hlen.
  { clear -Hwf Hc. induction Hwf as [|[k x] cols Hx _ IH]; [done|].
    simpl in Hc. destruct (decide (item.1 = k)); [by injection Hc as <-|eauto]. }
  rewrite Forall_map. eapply Forall_impl; [exact Hwf|].
  intros [k x] Hx. simpl. destruct (decide (k = item.1)); [|done].
  simpl. by rewrite length_map.
Qed.

Lemma scaled_keeps (P : frame -> Prop) sf d :
  P d -> (forall x item, P x -> P (scale_one x item)) -> P (scaled sf d).
Proof.
  intros Hd Hstep. unfold scaled.
  revert d Hd. induction (default [] sf) as [|item items IH]; intros d Hd; [done|].
  simpl. apply IH, Hstep, Hd.
Qed.

Lemma scaled_index sf d : index (scaled sf d) = index d.
Proof.
  apply (scaled_keeps (fun x => index x = index d)); [done|].
  intros x item <-. apply scale_one_index.
Qed.

Lemma scaled_names sf d : column_names (scaled sf d) = column_names d.
Proof.
  apply (scaled_keeps (fun x => column_names x = column_names d)); [done|].
  intros x item <-. apply scale_one_names.
Qed.

Lemma keep_rows_filter {A} (keep : A -> bool) (l : list A) :
  keep_rows (map keep l) l = filter (fun x => keep x = true) l.
Proof.
  induction l as [|x l IH]; [done|]. simpl. rewrite filter_cons, IH.
  destruct (keep x); [by rewrite decide_True|by rewrite decide_False].
Qed.

Lemma keep_rows_length {A B} mask (l : list A) (k : list B) :
  length l = length k -> length (keep_rows mask l) = length (keep_rows mask k).
Proof.
  revert l k. induction mask as [|b mask IH]; intros [|x l] [|y k] Hlen;
    try done. simpl in *. destruct b; simpl; auto.
Qed.

Lemma where_index_index keep d :
  index (where_index keep d) = filter (fun t => keep t = true) (index d).
Proof. apply keep_rows_filter. Qed.

Lemma where_index_names keep d :
  column_names (where_index keep d) = column_names d.
Proof.
  unfold column_names, where_index. cbn [columns].
  rewrite <- list_fmap_compose. by apply list_fmap_ext.
Qed.

Lemma where_index_assoc keep d n :
  assoc n (columns (where_index keep d))
  = keep_rows (map keep (index d)) <$> assoc n (columns d).
Proof.
  unfold where_index. cbn [columns].
  induction (columns d) as [|[k x] cols IH]; [done|]. simpl.
  by destruct (decide (n = k)).
Qed.

Lemma where_index_well_formed keep d :
  well_formed d -> well_formed (where_index keep d).
Proof.
  unfold well_formed, where_index. cbn [index columns]. intros Hwf.
  rewrite Forall_map. eapply Forall_impl; [exact Hwf|].
  intros [k x] Hx. simpl in *. by apply keep_rows_length.
Qed.

(** Whatever the scaling and the two slices keep holds of the table that
    is drawn. *)
Lemma prepared_keeps (P : frame -> Prop) d sf start end_ d' :
  prepared d sf start end_ = Ok d' ->
  P (scaled sf d) -> (forall keep x, P x -> P (where_index keep x)) -> P d'.
Proof.
  intros Hp Hs Hw. unfold prepared in Hp.
  assert (forall x s y, P x -> slice_from x s = Ok y -> P y) as Hfrom.
  { intros x s y Hx. unfold slice_from.
    destruct (cast_slice_bound s false) as [z|]; [|discriminate]. simpl.
    destruct (check_bound x z); [|discriminate]. simpl.
    intros [= <-]. by apply Hw. }
  assert (forall x s y, P x -> slice_to x s = Ok y -> P y) as Hto.
  { intros x s y Hx. unfold slice_to.
    destruct (cast_slice_bound s true) as [z|]; [|discriminate]. simpl.
    destruct (check_bound x z); [|discriminate]. simpl.
    intros [= <-]. by apply Hw. }
  destruct start as [[|a s]|]; destruct end_ as [[|b s']|]; simpl in Hp;
    try (injection Hp as <-; exact Hs);
    try (destruct (slice_from (scaled sf d) (String a s)) as [x|] eqn:Hx;
         [|discriminate]; simpl in Hp);
    try (injection Hp as <-); eauto.
Qed.

Lemma prepared_names d sf start end_ d' :
  prepared d sf start end_ = Ok d' -> column_names d' = column_names d.
Proof.
  intros Hp. apply (prepared_keeps (fun x => column_names x = column_names d)
                      _ _ _ _ _ Hp); [apply scaled_names|].
  intros keep x <-. apply where_index_names.
Qed.

Lemma prepared_well_formed d sf start end_ d' :
  prepared d sf start end_ = Ok d' -> well_formed d -> well_formed d'.
Proof.
  intros Hp Hwf. apply (prepared_keeps well_formed _ _ _ _ _ Hp).
  - apply (scaled_keeps well_formed); [done|]. intros x item.
    apply scale_one_well_formed.
  - intros keep x. apply where_index_well_formed.
Qed.

Lemma prepared_columns d sf start end_ d' n :
  prepared d sf start end_ = Ok d' ->
  is_Some (assoc n (columns d')) <-> n ∈ column_names d.
Proof.
  intros Hp. rewrite assoc_is_Some. fold (column_names d').
  by rewrite (prepared_names _ _ _ _ _ Hp).
Qed.

(** A bound that the slice accepted is a date [pd.to_datetime] reads. *)
Lemma prepared_to_datetime d sf start end_ d' :
  prepared d sf start end_ = Ok d' ->
  (exists lo, to_datetime start = Ok lo) /\ (exists hi, to_datetime end_ = Ok hi).
Proof.
  intros Hp. unfold prepared in Hp. split.
  - destruct start as [[|a s]|]; [by eexists|..|by eexists].
    destruct (slice_from (scaled sf d) (String a s)) as [x|] eqn:Hx;
      [|discriminate].
    unfold slice_from, cast_slice_bound in Hx. unfold to_datetime.
    destruct (Time.parse_iso (String a s)) as [[t r]|]; [by eexists|discriminate].
  - destruct (match start with
              | Some (String _ _ as s) => slice_from (scaled sf d) s
              | _ => Ok (scaled sf d)
              end) as [x|]; [|discriminate]. simpl in Hp.
    destruct end_ as [[|b s]|]; [by eexists|..|by eexists].
    unfold slice_to, cast_slice_bound in Hp. unfold to_datetime.
    destruct (Time.parse_iso (String b s)) as [[t r]|]; [by eexists|discriminate].
Qed.

(** *** Completed and failed calls *)

Lemma select_total d names :
  Forall (fun n => is_Some (assoc n (columns d))) names ->
  exists sel, select d names = Ok sel.
Proof.
  intros Hall. destruct (select d names) as [sel|e] eqn:Hsel; [by eexists|].
  apply select_raise in Hsel as (done_ & name & rest & -> & _ & Hname & _).
  apply Forall_app in Hall as [_ Hall]. apply Forall_cons in Hall as [[? Hs] _].
  congruence.
Qed.

Lemma render_ok d names sf start end_ title_ plot_load cs :
  render d names sf start end_ title_ plot_load = (Ok (), cs) ->
  exists d' loads lo hi,
    prepared d sf start end_ = Ok d'
    /\ Forall (fun n => is_Some (assoc n (columns d'))) names
    /\ overlay d' sf plot_load = Ok loads
    /\ to_datetime start = Ok lo /\ to_datetime end_ = Ok hi
    /\ cs = [rc_font "Helvetica Neue"; figure 12 6]
            ++ bands d' sf names (zeros (length (index d')))
            ++ loads ++ finish_calls d' names lo hi title_.
Proof.
  unfold render.
  destruct (prepared d sf start end_) as [d'|]; [|discriminate].
  destruct (select d' names) as [sel|] eqn:Hsel; [|discriminate].
  destruct (overlay d' sf plot_load) as [loads|] eqn:Hov; [|discriminate].
  destruct (to_datetime start) as [lo|]; [|discriminate].
  destruct (to_datetime end_) as [hi|]; [|discriminate].
  intros [= <-]. apply select_ok in Hsel as (_ & _ & _ & Hall).
  by exists d', loads, lo, hi.
Qed.

Lemma run_completed df d names sf start end_ title_ plot_load w w' :
  heap w !! df = Some d ->
  plot_power_system df names sf start end_ title_ plot_load w = (Ok (), w') ->
  exists d' loads lo hi,
    prepared d sf start end_ = Ok d'
    /\ Forall (fun n => is_Some (assoc n (columns d'))) names
    /\ overlay d' sf plot_load = Ok loads
    /\ to_datetime start = Ok lo /\ to_datetime end_ = Ok hi
    /\ canvas w' = canvas w
         ++ [rc_font "Helvetica Neue"; figure 12 6]
         ++ bands d' sf names (zeros (length (index d')))
         ++ loads ++ finish_calls d' names lo hi title_.
Proof.
  intros Hdf Hrun.
  destruct (plot_power_system_run df d names sf start end_ title_ plot_load w Hdf)
    as [Hr Hc].
  rewrite Hrun in Hr, Hc. cbn [fst snd] in Hr, Hc.
  destruct (render d names sf start end_ title_ plot_load) as [r cs] eqn:Hrender.
  cbn [fst snd] in Hr, Hc. subst r.
  apply render_ok in Hrender as (d' & loads & lo & hi & ? & ? & ? & ? & ? & ->).
  exists d', loads, lo, hi. by rewrite Hc.
Qed.

Lemma render_ok_iff d names sf start end_ title_ plot_load :
  (render d names sf start end_ title_ plot_load).1 = Ok ()
  <-> (exists d', prepared d sf start end_ = Ok d')
      /\ Forall (fun n => n ∈ column_names d) names
      /\ (plot_load = true -> is_Some sf /\ "TotalLoad" ∈ column_names d).
Proof.
  unfold render.
  destruct (prepared d sf start end_) as [d'|e] eqn:Hp.
  2:{ simpl. split; [discriminate|]. by intros [[? ?] _]. }
  destruct (prepared_to_datetime _ _ _ _ _ Hp) as [[lo ->] [hi ->]].
  assert (Forall (fun n => n ∈ column_names d) names
          <-> Forall (fun n => is_Some (assoc n (columns d'))) names) as ->.
  { apply Forall_iff. intros n. symmetry. by apply (prepared_columns _ _ _ _ _ n Hp). }
  rewrite <- (prepared_columns _ _ _ _ _ "TotalLoad" Hp).
  destruct (select d' names) as [sel|e] eqn:Hsel.
  - apply select_ok in Hsel as (_ & _ & _ & Hall).
    unfold overlay. destruct plot_load.
    + destruct sf as [items|].
      * destruct (assoc "TotalLoad" (columns d')) as [load|]; simpl.
        -- split; [|done]. intros _. split; [by eexists|]. split; [done|].
           intros _. split; by eexists.
        -- split; [discriminate|]. intros (_ & _ & H).
           destruct (H eq_refl) as [_ [? ?]]. discriminate.
      * simpl. split; [discriminate|]. intros (_ & _ & H).
        destruct (H eq_refl) as [[? ?] _]. discriminate.
    + simpl. split; [|done]. intros _. split; [by eexists|]. split; [done|].
      discriminate.
  - simpl. split; [discriminate|]. intros (_ & Hall & _).
    apply select_total in Hall as [sel Hsel']. congruence.
Qed.

Lemma series_label_spec sf base column :
  series_label sf base column = Label base (sf ≫= assoc column).
Proof.
  unfold series_label. destruct sf as [[|item items]|]; [done| |done].
  cbn [truthy_dict]. by destruct (Some (item :: items) ≫= assoc column).
Qed.

Lemma bands_no_dashed d sf names : forall y,
  filter (fun c => is_dashed c = true) (bands d sf names y) = [].
Proof.
  induction names as [|name names IH]; intros y; [done|].
  simpl. destruct (assoc name (columns d)); [|done].
  rewrite !filter_cons_False by (simpl; done). apply IH.
Qed.

Lemma bands_aligned d sf names : forall y,
  well_formed d -> length y = length (index d) ->
  Forall (aligned (length (index d))) (bands d sf names y).
Proof.
  induction names as [|name names IH]; intros y Hwf Hy; [constructor|].
  simpl. destruct (assoc name (columns d)) as [col|] eqn:Hc; [|constructor].
  assert (length col = length (index d)) as Hlen.
  { clear -Hwf Hc. unfold well_formed in Hwf.
    induction Hwf as [|[k x] cols Hx _ IH]; [done|].
    simpl in Hc. destruct (decide (name = k)); [by injection Hc as <-|eauto]. }
  assert (length (vadd y col) = length (index d)) as Hv.
  { unfold vadd. rewrite length_zip_with. lia. }
  constructor; [done|]. constructor; [done|]. by apply IH.
Qed.

Lemma bands_on_index d sf names : forall y c,
  c ∈ bands d sf names y ->
  match c with
  | fill_between x _ _ _ _ | plot x _ _ _ => x = index d
  | _ => True
  end.
Proof.
  induction names as [|name names IH]; intros y c; simpl.
  { by intros ?%elem_of_nil. }
  destruct (assoc name (columns d)); [|by intros ?%elem_of_nil].
  intros [->|[->|Hc]%elem_of_cons]%elem_of_cons; [done..|]. by eapply IH.
Qed.

(** *** Further properties of the renderer *)



(** X7. A name in [columns_to_plot] that is not a column raises
    [KeyError] at line 128, before any band is drawn: the calls made are
    those that set the font and open the figure, and no others, also when
    columns listed in front of the missing one exist. *)
Theorem missing_column_raises_before_drawing
    df d d' names name sf start end_ title_ plot_load w :
  heap w !! df = Some d ->
  prepared d sf start end_ = Ok d' ->
  name ∈ names -> name ∉ column_names d ->
  exists msg,
    (plot_power_system df names sf start end_ title_ plot_load w).1
    = Raise (Exn KeyError msg)
    /\ canvas (plot_power_system df names sf start end_ title_ plot_load w).2
       = canvas w ++ [rc_font "Helvetica Neue"; figure 12 6].
Proof.
  intros Hdf Hp Hin Hout.
  destruct (plot_power_system_run df d names sf start end_ title_ plot_load w Hdf)
    as [-> ->].
  unfold render. rewrite Hp.
  destruct (select d' names) as [sel|e] eqn:Hsel.
  - apply select_ok in Hsel as (_ & _ & _ & Hall).
    rewrite Forall_forall in Hall. apply Hall in Hin.
    by apply (prepared_columns _ _ _ _ _ name Hp) in Hin.
  - apply select_raise in Hsel as (? & missing & ? & _ & _ & _ & ->).
    by eexists.
Qed.

Lemma missing_column_raises_before_drawing_witness :
  exists msg,
    (plot_power_system 0 ["A"; "Nuclear"; "B"] None None None
       "Danmarks elsystem" false (sample_world HOUR)).1
    = Raise (Exn KeyError msg)
    /\ canvas (plot_power_system 0 ["A"; "Nuclear"; "B"] None None None
                 "Danmarks elsystem" false (sample_world HOUR)).2
       = canvas (sample_world HOUR) ++ [rc_font "Helvetica Neue"; figure 12 6].
Proof.
  apply (missing_column_raises_before_drawing 0 (sample_table HOUR)
           (sample_table HOUR) ["A"; "Nuclear"; "B"] "Nuclear").
  - vm_compute. reflexivity.
  - vm_compute. reflexivity.
  - apply (bool_decide_unpack _). vm_compute. exact I.
  - apply (bool_decide_unpack _). vm_compute. exact I.
Defined.

(** X8. In a completed call the load is drawn once or not at all. With
    [plot_load] there is exactly one dashed line; it comes after all the
    bands, runs over the rows of the table that is drawn with the values
    of its column [TotalLoad], and is labelled [Forbrug], with the factor
    when [TotalLoad] is a key of [scale_factors]. Without [plot_load]
    there is no dashed line. *)
Theorem load_overlay_is_one_dashed_line
    df d names sf start end_ title_ plot_load w w' :
  heap w !! df = Some d ->
  plot_power_system df names sf start end_ title_ plot_load w = (Ok (), w') ->
  exists d' before loads after,
    prepared d sf start end_ = Ok d'
    /\ canvas w' = canvas w ++ before ++ loads ++ after
    /\ length (filter (fun c => is_fill c = true) before) = length names
    /\ filter (fun c => is_dashed c = true) before = []
    /\ filter (fun c => is_fill c = true) after = []
    /\ filter (fun c => is_dashed c = true) after = []
    /\ if plot_load
       then exists load,
           assoc "TotalLoad" (columns d') = Some load
           /\ loads = [plot (index d') load Dashed
                         (Some (Label "Forbrug" (sf ≫= assoc "TotalLoad")))]
       else loads = [].
Proof.
  intros Hdf Hrun.
  destruct (run_completed _ _ _ _ _ _ _ _ _ _ Hdf Hrun)
    as (d' & loads & lo & hi & Hp & Hall & Hov & _ & _ & Hc).
  exists d', ([rc_font "Helvetica Neue"; figure 12 6]
              ++ bands d' sf names (zeros (length (index d')))),
         loads, (finish_calls d' names lo hi title_).
  split; [done|]. split; [by rewrite Hc, <- !app_assoc|].
  split; [by apply (bands_fills d' sf names)|].
  split; [apply (bands_no_dashed d' sf names)|].
  split; [done|]. split; [done|].
  unfold overlay in Hov. destruct plot_load; [|by injection Hov as <-].
  destruct sf as [items|]; [|discriminate].
  destruct (assoc "TotalLoad" (columns d')) as [load|]; [|discriminate].
  injection Hov as <-. by exists load.
Qed.

Lemma load_overlay_is_one_dashed_line_witness :
  exists d' before loads after,
    prepared (sample_table HOUR) (Some [("TotalLoad", 2%Q)]) None None = Ok d'
    /\ canvas (plot_power_system 0 ["A"; "B"] (Some [("TotalLoad", 2%Q)])
                 None None "Danmarks elsystem" true (sample_world HOUR)).2
       = canvas (sample_world HOUR) ++ before ++ loads ++ after
    /\ length (filter (fun c => is_fill c = true) before) = 2%nat
    /\ filter (fun c => is_dashed c = true) before = []
    /\ filter (fun c => is_fill c = true) after = []
    /\ filter (fun c => is_dashed c = true) after = []
    /\ exists load,
        assoc "TotalLoad" (columns d') = Some load
        /\ loads = [plot (index d') load Dashed
                      (Some (Label "Forbrug" (Some 2%Q)))].
Proof.
  apply (load_overlay_is_one_dashed_line 0 (sample_table HOUR) ["A"; "B"]
           (Some [("TotalLoad", 2%Q)]) None None "Danmarks elsystem" true
           (sample_world HOUR)).
  - vm_compute. reflexivity.
  - vm_compute. reflexivity.
Defined.

Lemma assoc_unknown (items : dict) (known : list string) n :
  Forall (fun item => item.1 ∉ known) items -> n ∈ known ->
  assoc n items = None.
Proof.
  intros Hall Hn. induction Hall as [|[k f] items Hk _ IH]; [done|].
  simpl in *. destruct (decide (n = k)) as [->|]; [done|exact IH].
Qed.

Lemma scaled_unknown items d :
  Forall (fun item => item.1 ∉ column_names d) items ->
  scaled (Some items) d = d.
Proof.
  unfold scaled. cbn [default]. induction 1 as [|item items Hk _ IH]; [done|].
  change (foldl scale_one (scale_one d item) items = d).
  assert (scale_one d item = d) as ->; [|exact IH].
  unfold scale_one.
  destruct (assoc item.1 (columns d)) as [col|] eqn:Hc; [|done].
  destruct Hk. apply assoc_is_Some. eauto.
Qed.

Lemma bands_unknown_keys d items names : forall y,
  Forall (fun item => item.1 ∉ column_names d) items ->
  bands d (Some items) names y = bands d (Some []) names y.
Proof.
  intros y Hall. revert y. induction names as [|name names IH]; intros y; [done|].
  simpl. destruct (assoc name (columns d)) as [col|] eqn:Hc; [|done].
  rewrite IH, !series_label_spec. cbn [mbind option_bind].
  rewrite (assoc_unknown items (column_names d)); [done..|].
  apply assoc_is_Some. eauto.
Qed.

(** X9. Keys of [scale_factors] that name no column are ignored (line
    113): the call has the outcome of the same call with an empty
    mapping, and makes the same calls to matplotlib. *)
Theorem unknown_scale_keys_are_ignored
    df d names items start end_ title_ plot_load w :
  heap w !! df = Some d ->
  Forall (fun item => item.1 ∉ column_names d) items ->
  (plot_power_system df names (Some items) start end_ title_ plot_load w).1
  = (plot_power_system df names (Some []) start end_ title_ plot_load w).1
  /\ canvas (plot_power_system df names (Some items) start end_ title_
               plot_load w).2
     = canvas (plot_power_system df names (Some []) start end_ title_
                 plot_load w).2.
Proof.
  intros Hdf Hall.
  destruct (plot_power_system_run df d names (Some items) start end_ title_
              plot_load w Hdf) as [-> ->].
  destruct (plot_power_system_run df d names (Some []) start end_ title_
              plot_load w Hdf) as [-> ->].
  assert (render d names (Some items) start end_ title_ plot_load
          = render d names (Some []) start end_ title_ plot_load) as ->; [|done].
  unfold render.
  assert (prepared d (Some items) start end_ = prepared d (Some []) start end_)
    as Hsame.
  { unfold prepared. by rewrite (scaled_unknown items d Hall). }
  rewrite Hsame.
  destruct (prepared d (Some []) start end_) as [d'|] eqn:Hp; [|done].
  pose proof (prepared_names _ _ _ _ _ Hp) as Hn.
  rewrite <- Hn in Hall. rewrite (bands_unknown_keys d' items names _ Hall).
  assert (overlay d' (Some items) plot_load = overlay d' (Some []) plot_load)
    as ->; [|done].
  unfold overlay. destruct plot_load; [|done].
  destruct (assoc "TotalLoad" (columns d')) as [load|] eqn:Hload; [|done].
  rewrite (assoc_unknown items (column_names d')); [done..|].
  apply assoc_is_Some. eauto.
Qed.

Lemma unknown_scale_keys_are_ignored_witness :
  (plot_power_system 0 ["A"; "B"] (Some [("Nuclear", 3%Q)]) None None
     "Danmarks elsystem" true (sample_world HOUR)).1
  = (plot_power_system 0 ["A"; "B"] (Some []) None None
       "Danmarks elsystem" true (sample_world HOUR)).1
  /\ canvas (plot_power_system 0 ["A"; "B"] (Some [("Nuclear", 3%Q)]) None None
               "Danmarks elsystem" true (sample_world HOUR)).2
     = canvas (plot_power_system 0 ["A"; "B"] (Some []) None None
                 "Danmarks elsystem" true (sample_world HOUR)).2.
Proof.
  apply (unknown_scale_keys_are_ignored 0 (sample_table HOUR)).
  - vm_compute. reflexivity.
  - apply (bool_decide_unpack _). vm_compute. exact I.
Defined.

(** X10. In a completed call the band of a listed column has the colour
    of the palette, or [#CCCCCC] where the palette has none, and is
    labelled with the Danish name, or with the column name where there is
    none; the label carries the factor exactly when the column is a key of
    [scale_factors]. *)
Theorem band_colour_and_label df d names sf start end_ title_ plot_load w w' :
  heap w !! df = Some d ->
  plot_power_system df names sf start end_ title_ plot_load w = (Ok (), w') ->
  exists cs,
    canvas w' = canvas w ++ cs
    /\ forall i column,
        names !! i = Some column ->
        exists x y1 y2,
          filter (fun c => is_fill c = true) cs !! i
          = Some (fill_between x y1 y2
                    (get colors column "#CCCCCC")
                    (Label (get danish_names column column)
                           (sf ≫= assoc column))).
Proof.
  intros Hdf Hrun.
  destruct (run_completed _ _ _ _ _ _ _ _ _ _ Hdf Hrun)
    as (d' & loads & lo & hi & Hp & Hall & Hov & _ & _ & Hc).
  eexists. split; [exact Hc|].
  intros i column Hi.
  assert (is_Some (assoc column (columns d'))) as [col Hcol].
  { rewrite Forall_forall in Hall. apply Hall. by eapply list_elem_of_lookup_2. }
  destruct (bands_fills d' sf names (zeros (length (index d'))) Hall) as [_ Hnth].
  specialize (Hnth i column col Hi Hcol). rewrite series_label_spec in Hnth.
  do 3 eexists. rewrite !filter_app.
  replace (filter _ [rc_font _; figure _ _]) with (@nil call) by done.
  rewrite app_nil_l, lookup_app_l; [exact Hnth|].
  by apply lookup_lt_Some in Hnth.
Qed.

Lemma band_colour_and_label_witness :
  exists cs,
    canvas (plot_power_system 0 ["SolarPower"; "B"] (Some [("B", 2%Q)]) None None
              "Danmarks elsystem" false
              (mkWorld {[ 0%nat := mkFrame [0%Z]
                                     [("SolarPower", [1%Q]); ("B", [2%Q])] ]} [])).2
    = [] ++ cs
    /\ forall i column,
        ["SolarPower"; "B"] !! i = Some column ->
        exists x y1 y2,
          filter (fun c => is_fill c = true) cs !! i
          = Some (fill_between x y1 y2
                    (get colors column "#CCCCCC")
                    (Label (get danish_names column column)
                           (Some [("B", 2%Q)] ≫= assoc column))).
Proof.
  apply (band_colour_and_label 0
           (mkFrame [0%Z] [("SolarPower", [1%Q]); ("B", [2%Q])])
           ["SolarPower"; "B"] (Some [("B", 2%Q)]) None None
           "Danmarks elsystem" false
           (mkWorld {[ 0%nat := mkFrame [0%Z]
                                  [("SolarPower", [1%Q]); ("B", [2%Q])] ]} [])).
  - vm_compute. reflexivity.
  - vm_compute. reflexivity.
Defined.

(** X11. On a table whose columns all have one cell per row, every
    sequence handed to [fill_between] and to [plot] in a completed call
    has one entry per row of the table that is drawn: the row labels, the
    baselines and the tops of the bands, and the load. *)
Theorem sequences_have_one_entry_per_row
    df d names sf start end_ title_ plot_load w w' :
  heap w !! df = Some d ->
  well_formed d ->
  plot_power_system df names sf start end_ title_ plot_load w = (Ok (), w') ->
  exists d' cs,
    prepared d sf start end_ = Ok d'
    /\ canvas w' = canvas w ++ cs
    /\ Forall (aligned (length (index d'))) cs.
Proof.
  intros Hdf Hwf Hrun.
  destruct (run_completed _ _ _ _ _ _ _ _ _ _ Hdf Hrun)
    as (d' & loads & lo & hi & Hp & Hall & Hov & _ & _ & Hc).
  exists d'. eexists. split; [done|]. split; [exact Hc|].
  pose proof (prepared_well_formed _ _ _ _ _ Hp Hwf) as Hwf'.
  apply Forall_app. split; [by repeat constructor|].
  apply Forall_app. split.
  { apply bands_aligned; [done|]. unfold zeros. by rewrite length_replicate. }
  apply Forall_app. split; [|by repeat constructor].
  unfold overlay in Hov. destruct plot_load; [|injection Hov as <-; constructor].
  destruct sf as [items|]; [|discriminate].
  destruct (assoc "TotalLoad" (columns d')) as [load|] eqn:Hload; [|discriminate].
  injection Hov as <-. constructor; [|constructor]. split; [done|].
  clear -Hwf' Hload. unfold well_formed in Hwf'.
  induction Hwf' as [|[k x] cols Hx _ IH]; [done|].
  simpl in Hload. destruct (decide ("TotalLoad" = k)); [by injection Hload as <-|eauto].
Qed.

Lemma sequences_have_one_entry_per_row_witness :
  exists d' cs,
    prepared (sample_table HOUR) (Some [("A", 2%Q)]) (Some "2022-03-01") None
    = Ok d'
    /\ canvas (plot_power_system 0 ["A"; "B"] (Some [("A", 2%Q)])
                 (Some "2022-03-01") None "Danmarks elsystem" true
                 (sample_world HOUR)).2
       = canvas (sample_world HOUR) ++ cs
    /\ Forall (aligned (length (index d'))) cs.
Proof.
  apply (sequences_have_one_entry_per_row 0 (sample_table HOUR) ["A"; "B"]
           (Some [("A", 2%Q)]) (Some "2022-03-01") None "Danmarks elsystem" true
           (sample_world HOUR)).
  - vm_compute. reflexivity.
  - repeat constructor.
  - vm_compute. reflexivity.
Defined.

(** X12. A call depends on the table and on the arguments only, and
    only adds to what has been drawn: for the same table and arguments the
    outcome is the same and the same calls are appended, whatever else
    the store holds and whatever was drawn before. *)
Theorem outcome_depends_on_the_table_only
    df1 df2 d names sf start end_ title_ plot_load w1 w2 :
  heap w1 !! df1 = Some d -> heap w2 !! df2 = Some d ->
  (plot_power_system df1 names sf start end_ title_ plot_load w1).1
  = (plot_power_system df2 names sf start end_ title_ plot_load w2).1
  /\ exists cs,
      canvas (plot_power_system df1 names sf start end_ title_ plot_load w1).2
      = canvas w1 ++ cs
      /\ canvas (plot_power_system df2 names sf start end_ title_ plot_load w2).2
         = canvas w2 ++ cs.
Proof.
  intros H1 H2.
  destruct (plot_power_system_run df1 d names sf start end_ title_ plot_load w1 H1)
    as [-> ->].
  destruct (plot_power_system_run df2 d names sf start end_ title_ plot_load w2 H2)
    as [-> ->].
  split; [done|]. by eexists.
Qed.

Lemma outcome_depends_on_the_table_only_witness :
  (plot_power_system 0 ["A"; "B"] None None None "Danmarks elsystem" false
     (sample_world HOUR)).1
  = (plot_power_system 5 ["A"; "B"] None None None "Danmarks elsystem" false
       (mkWorld {[ 5%nat := sample_table HOUR; 0%nat := sample_table 0 ]}
                [grid])).1
  /\ exists cs,
      canvas (plot_power_system 0 ["A"; "B"] None None None "Danmarks elsystem"
                false (sample_world HOUR)).2
      = canvas (sample_world HOUR) ++ cs
      /\ canvas (plot_power_system 5 ["A"; "B"] None None None
                   "Danmarks elsystem" false
                   (mkWorld {[ 5%nat := sample_table HOUR;
                               0%nat := sample_table 0 ]} [grid])).2
         = [grid] ++ cs.
Proof.
  apply (outcome_depends_on_the_table_only 0 5 (sample_table HOUR) ["A"; "B"]
           None None None "Danmarks elsystem" false (sample_world HOUR)
           (mkWorld {[ 5%nat := sample_table HOUR; 0%nat := sample_table 0 ]}
                    [grid])).
  - vm_compute. reflexivity.
  - vm_compute. reflexivity.
Defined.

(** *** Scaling *)

Lemma keep_rows_map {A B} (g : A -> B) mask (l : list A) :
  keep_rows mask (map g l) = map g (keep_rows mask l).
Proof.
  revert l. induction mask as [|b mask IH]; intros [|x l]; try done.
  simpl. destruct b; simpl; by rewrite IH.
Qed.

Lemma assoc_absent {V} k (l : list (string * V)) :
  k ∉ l.*1 -> assoc k l = None.
Proof.
  intros Hk. destruct (assoc k l) eqn:Hl; [|done].
  destruct Hk. apply assoc_is_Some. eauto.
Qed.

Lemma scaled_assoc items : forall d n,
  NoDup items.*1 ->
  assoc n (columns (scaled (Some items) d))
  = scale_by (assoc n items) <$> assoc n (columns d).
Proof.
  unfold scaled. cbn [default].
  induction items as [|[k f] items IH]; intros d n Hnd.
  { simpl. by destruct (assoc n (columns d)). }
  change (assoc n (columns (foldl scale_one (scale_one d (k, f)) items))
          = scale_by (assoc n ((k, f) :: items)) <$> assoc n (columns d)).
  rewrite fmap_cons in Hnd. apply NoDup_cons in Hnd as [Hk Hnd].
  rewrite IH, scale_one_assoc by done. simpl.
  destruct (decide (n = k)) as [->|]; [|done].
  rewrite (assoc_absent k items Hk).
  by destruct (assoc k (columns d)).
Qed.

Lemma scaled_from_scaled items d :
  NoDup items.*1 -> scaled_from items (scaled (Some items) d) d.
Proof.
  intros Hnd. split; [apply scaled_index|]. split; [apply scaled_names|].
  intros n. by apply scaled_assoc.
Qed.

Lemma scaled_from_where_index items keep x y :
  scaled_from items x y ->
  scaled_from items (where_index keep x) (where_index keep y).
Proof.
  intros (Hi & Hn & Hc). split; [|split].
  - by rewrite !where_index_index, Hi.
  - by rewrite !where_index_names.
  - intros n. rewrite !where_index_assoc, Hc, Hi.
    destruct (assoc n (columns y)) as [col|]; [|done]. simpl. f_equal.
    destruct (assoc n items); [apply keep_rows_map|done].
Qed.

Lemma scaled_from_slice items x y s upper :
  scaled_from items x y ->
  match (if upper : bool then slice_to x s else slice_from x s),
        (if upper then slice_to y s else slice_from y s) with
  | Ok x', Ok y' => scaled_from items x' y'
  | Raise e, Raise e0 => e = e0
  | _, _ => False
  end.
Proof.
  intros Hrel. pose proof Hrel as (Hi & _ & _).
  destruct upper; unfold slice_to, slice_from.
  all: match goal with
       | |- context [cast_slice_bound ?s0 ?u] =>
           destruct (cast_slice_bound s0 u) as [bound|]; [|done]
       end.
  all: simpl; unfold check_bound; rewrite Hi.
  all: destruct (_ || _); simpl; [|done].
  all: by apply scaled_from_where_index.
Qed.

Lemma prepared_scaled d items start end_ :
  NoDup items.*1 ->
  match prepared d (Some items) start end_, prepared d None start end_ with
  | Ok d', Ok d0 => scaled_from items d' d0
  | Raise e, Raise e0 => e = e0
  | _, _ => False
  end.
Proof.
  intros Hnd. unfold prepared.
  pose proof (scaled_from_scaled items d Hnd) as Hrel.
  change (scaled None d) with d.
  assert (match
            match start with
            | Some (String _ _ as s) => slice_from (scaled (Some items) d) s
            | _ => Ok (scaled (Some items) d)
            end,
            match start with
            | Some (String _ _ as s) => slice_from d s
            | _ => Ok d
            end
          with
          | Ok x, Ok y => scaled_from items x y
          | Raise e, Raise e0 => e = e0
          | _, _ => False
          end) as Hstart.
  { destruct start as [[|a s]|]; try done.
    apply (scaled_from_slice items _ _ (String a s) false Hrel). }
  destruct (match start with
            | Some (String _ _ as s) => slice_from (scaled (Some items) d) s
            | _ => Ok (scaled (Some items) d)
            end) as [x|e],
           (match start with
            | Some (String _ _ as s) => slice_from d s
            | _ => Ok d
            end) as [y|e0]; try done.
  simpl. destruct end_ as [[|b s]|]; try done.
  apply (scaled_from_slice items _ _ (String b s) true Hstart).
Qed.

(** X13. Scaling and the date filter. With the keys of [scale_factors]
    distinct, as those of a [dict] are, the table that lines 110 to 120
    leave is the one the same call without scale factors leaves, with each
    column that is a key multiplied by its factor, once; the rows and the
    column names are the same, and the filter fails with factors exactly
    as it does without. *)
Theorem scale_factors_multiply_their_columns df d items start end_ w :
  heap w !! df = Some d ->
  NoDup items.*1 ->
  match prepare df (Some items) start end_ w, prepare df None start end_ w with
  | (Ok l, w1), (Ok l0, w0) =>
      exists d' d0,
        heap w1 !! l = Some d' /\ heap w0 !! l0 = Some d0
        /\ index d' = index d0
        /\ column_names d' = column_names d0
        /\ forall n col,
            assoc n (columns d0) = Some col ->
            assoc n (columns d') = Some (scale_by (assoc n items) col)
  | (Raise e, _), (Raise e0, _) => e = e0
  | _, _ => False
  end.
Proof.
  intros Hdf Hnd.
  pose proof (prepare_post df d (Some items) start end_ w Hdf) as H1.
  pose proof (prepare_post df d None start end_ w Hdf) as H0.
  pose proof (prepared_scaled d items start end_ Hnd) as Hrel.
  unfold post in H1, H0.
  destruct (prepare df (Some items) start end_ w) as [[l|e] w1],
           (prepare df None start end_ w) as [[l0|e0] w0];
    cbn [fst snd] in H1, H0;
    destruct H1 as (_ & _ & H1), H0 as (_ & _ & H0).
  - destruct H1 as (d' & Hp1 & Hl1), H0 as (d0 & Hp0 & Hl0).
    rewrite Hp1, Hp0 in Hrel. destruct Hrel as (Hi & Hn & Hc).
    exists d', d0. repeat split; try done.
    intros n col Hcol. by rewrite Hc, Hcol.
  - destruct H1 as (d' & Hp1 & _). by rewrite Hp1, H0 in Hrel.
  - destruct H0 as (d0 & Hp0 & _). by rewrite H1, Hp0 in Hrel.
  - by rewrite H1, H0 in Hrel.
Qed.

Lemma scale_factors_multiply_their_columns_witness :
  match prepare 0 (Some [("A", 2%Q); ("Nuclear", 3%Q)]) (Some "2022-03-01") None
          (sample_world HOUR),
        prepare 0 None (Some "2022-03-01") None (sample_world HOUR) with
  | (Ok l, w1), (Ok l0, w0) =>
      exists d' d0,
        heap w1 !! l = Some d' /\ heap w0 !! l0 = Some d0
        /\ index d' = index d0
        /\ column_names d' = column_names d0
        /\ forall n col,
            assoc n (columns d0) = Some col ->
            assoc n (columns d')
            = Some (scale_by (assoc n [("A", 2%Q); ("Nuclear", 3%Q)]) col)
  | (Raise e, _), (Raise e0, _) => e = e0
  | _, _ => False
  end.
Proof.
  apply (scale_factors_multiply_their_columns 0 (sample_table HOUR)
           [("A", 2%Q); ("Nuclear", 3%Q)] (Some "2022-03-01") None
           (sample_world HOUR)).
  - vm_compute. reflexivity.
  - apply (bool_decide_unpack _). vm_compute. exact I.
Defined.

(** *** The date range *)

Lemma prepared_between d sf s1 s2 t1 r1 t2 r2 d' :
  Time.parse_iso s1 = Some (t1, r1) -> Time.parse_iso s2 = Some (t2, r2) ->
  prepared d sf (Some s1) (Some s2) = Ok d' ->
  index d'
  = filter (fun t => t1 <= t <= t2 + Time.resolution_ns r2 - 1)%Z (index d).
Proof.
  intros H1 H2 Hp. unfold prepared in Hp.
  destruct s1 as [|a s1]; [discriminate H1|].
  destruct s2 as [|b s2]; [discriminate H2|].
  unfold slice_from, slice_to, cast_slice_bound in Hp. rewrite H1 in Hp.
  cbn [mbind result_bind] in Hp.
  destruct (check_bound (scaled sf d) t1); [|discriminate Hp].
  cbn [mbind result_bind] in Hp. rewrite H2 in Hp.
  cbn [mbind result_bind] in Hp.
  destruct (check_bound _ _); [|discriminate Hp].
  cbn [mbind result_bind] in Hp. injection Hp as <-.
  rewrite !where_index_index, scaled_index, list_filter_filter.
  apply list_filter_iff. intros t. rewrite Z.leb_le, Z.leb_le. lia.
Qed.

Lemma overlay_plots d sf plot_load loads :
  overlay d sf plot_load = Ok loads ->
  Forall (fun c => is_plot c = true) loads
  /\ forall x y st lab, plot x y st lab ∈ loads -> x = index d.
Proof.
  unfold overlay. destruct plot_load.
  2:{ intros [= <-]. split; [constructor|]. by intros ? ? ? ? ?%elem_of_nil. }
  destruct sf as [items|]; [|discriminate].
  destruct (assoc "TotalLoad" (columns d)) as [load|]; [|discriminate].
  intros [= <-]. split; [by repeat constructor|].
  intros x y st lab [[= -> _ _ _]|?%elem_of_nil]%elem_of_cons; done.
Qed.

(** X14. Both date bounds are inclusive and [end] covers its whole
    period: with bounds the parser reads, a completed call draws every
    band and the load over the rows from the first instant of [start] to
    the last instant of the day (or second) [end] names. The limits of the
    axis are the first instants of both, so on a day given as [end] the
    rows after midnight are drawn beyond the right limit. *)
Theorem date_bounds_are_inclusive
    df d names sf s1 s2 t1 r1 t2 r2 title_ plot_load w w' :
  heap w !! df = Some d ->
  Time.parse_iso s1 = Some (t1, r1) -> Time.parse_iso s2 = Some (t2, r2) ->
  plot_power_system df names sf (Some s1) (Some s2) title_ plot_load w
  = (Ok (), w') ->
  exists cs,
    canvas w' = canvas w ++ cs
    /\ (forall c, c ∈ cs ->
        match c with
        | fill_between x _ _ _ _ | plot x _ _ _ =>
            x = filter (fun t => t1 <= t <= t2 + Time.resolution_ns r2 - 1)%Z
                       (index d)
        | _ => True
        end)
    /\ filter (fun c => is_xlim c = true) cs = [xlim (Timestamp t1) (Timestamp t2)].
Proof.
  intros Hdf H1 H2 Hrun.
  destruct (run_completed _ _ _ _ _ _ _ _ _ _ Hdf Hrun)
    as (d' & loads & lo & hi & Hp & Hall & Hov & Hlo & Hhi & Hc).
  rewrite <- (prepared_between _ _ _ _ _ _ _ _ _ H1 H2 Hp).
  apply overlay_plots in Hov as [Hplots Hx].
  assert (lo = Timestamp t1) as ->.
  { destruct s1; [discriminate H1|]. unfold to_datetime in Hlo.
    rewrite H1 in Hlo. by injection Hlo. }
  assert (hi = Timestamp t2) as ->.
  { destruct s2; [discriminate H2|]. unfold to_datetime in Hhi.
    rewrite H2 in Hhi. by injection Hhi. }
  eexists. split; [exact Hc|]. split.
  - intros c [Hin|[Hin|[Hin|Hin]%elem_of_app]%elem_of_app]%elem_of_app.
    + apply elem_of_cons in Hin as [->|Hin]; [done|].
      apply elem_of_cons in Hin as [->|Hin]; [done|]. by apply elem_of_nil in Hin.
    + by apply bands_on_index in Hin.
    + rewrite Forall_forall in Hplots. specialize (Hplots c Hin).
      destruct c; try discriminate Hplots. by eapply Hx.
    + unfold finish_calls in Hin.
      repeat (apply elem_of_cons in Hin as [->|Hin]; [done|]).
      by apply elem_of_nil in Hin.
  - rewrite !filter_app, bands_xlims.
    rewrite (filter_plots_nil is_xlim loads) by (done || by intros []).
    done.
Qed.

Lemma date_bounds_are_inclusive_witness :
  exists cs,
    canvas (plot_power_system 0 ["A"; "B"] (Some []) (Some "2022-03-01T13:00:00")
              (Some "2022-03-01") "Danmarks elsystem" true
              (sample_world HOUR)).2
    = canvas (sample_world HOUR) ++ cs
    /\ (forall c, c ∈ cs ->
        match c with
        | fill_between x _ _ _ _ | plot x _ _ _ =>
            x = filter (fun t => 1646139600000000000 <= t
                                 <= 1646092800000000000
                                    + Time.resolution_ns Time.ResDay - 1)%Z
                       (index (sample_table HOUR))
        | _ => True
        end)
    /\ filter (fun c => is_xlim c = true) cs
       = [xlim (Timestamp 1646139600000000000) (Timestamp 1646092800000000000)].
Proof.
  apply (date_bounds_are_inclusive 0 (sample_table HOUR) ["A"; "B"] (Some [])
           "2022-03-01T13:00:00" "2022-03-01" 1646139600000000000
           Time.ResSecond 1646092800000000000 Time.ResDay
           "Danmarks elsystem" true (sample_world HOUR)).
  - vm_compute. reflexivity.
  - vm_compute. reflexivity.
  - vm_compute. reflexivity.
  - vm_compute. reflexivity.
Defined.

Lemma foldl_max_between lo hi l : forall a,
  (lo <= a <= hi)%Z -> Forall (fun x => lo <= x <= hi)%Z l ->
  (lo <= foldl Z.max a l <= hi)%Z.
Proof.
  induction l as [|x l IH]; intros a Ha Hl; [done|].
  apply Forall_cons in Hl as [Hx Hl]. simpl. apply IH; [lia|done].
Qed.

Lemma foldl_min_between lo hi l : forall a,
  (lo <= a <= hi)%Z -> Forall (fun x => lo <= x <= hi)%Z l ->
  (lo <= foldl Z.min a l <= hi)%Z.
Proof.
  induction l as [|x l IH]; intros a Ha Hl; [done|].
  apply Forall_cons in Hl as [Hx Hl]. simpl. apply IH; [lia|done].
Qed.

Lemma time_span_between lo hi d :
  index d <> [] -> Forall (fun x => lo <= x <= hi)%Z (index d) ->
  exists span, time_span d = Some span /\ (span <= hi - lo)%Z.
Proof.
  unfold time_span, index_max, index_min.
  destruct (index d) as [|t l]; [done|]. intros _ [Ht Hl]%Forall_cons.
  simpl. eexists. split; [done|].
  pose proof (foldl_max_between lo hi l t Ht Hl).
  pose proof (foldl_min_between lo hi l t Ht Hl). lia.
Qed.

(** X15. A plot of one calendar day, [start] and [end] giving the same
    day, has its time axis formatted as [%H:%M] whenever the table has a
    row on that day. *)
Theorem one_day_gets_the_clock_format
    df d names sf s t title_ plot_load w w' :
  heap w !! df = Some d ->
  Time.parse_iso s = Some (t, Time.ResDay) ->
  (exists x, x ∈ index d /\ (t <= x < t + Time.NS_PER_DAY)%Z) ->
  plot_power_system df names sf (Some s) (Some s) title_ plot_load w
  = (Ok (), w') ->
  exists cs,
    canvas w' = canvas w ++ cs
    /\ filter (fun c => is_formatter c = true) cs = [set_major_formatter "%H:%M"].
Proof.
  intros Hdf Hs (x & Hx & Hday) Hrun.
  destruct (run_completed _ _ _ _ _ _ _ _ _ _ Hdf Hrun)
    as (d' & loads & lo & hi & Hp & Hall & Hov & _ & _ & Hc).
  pose proof (prepared_between _ _ _ _ _ _ _ _ _ Hs Hs Hp) as Hidx.
  cbn [Time.resolution_ns] in Hidx.
  destruct (time_span_between t (t + Time.NS_PER_DAY - 1) d') as (span & Hspan & Hle).
  { rewrite Hidx. intros Hnil.
    apply (filter_nil_not_elem_of _ _ x Hnil); [lia|done]. }
  { rewrite Hidx, Forall_forall. by intros y [Hy _]%list_elem_of_filter. }
  apply overlay_plots in Hov as [Hplots _].
  eexists. split; [exact Hc|].
  rewrite !filter_app, bands_formatters.
  rewrite (filter_plots_nil is_formatter loads) by (done || by intros []).
  unfold finish_calls. rewrite Hspan.
  assert (date_format_of (Some span) = "%H:%M") as ->; [|done].
  unfold date_format_of, span_le, timedelta.
  destruct (span <=? 1 * Time.NS_PER_DAY)%Z eqn:Hcmp; [done|].
  apply Z.leb_gt in Hcmp. lia.
Qed.

Lemma one_day_gets_the_clock_format_witness :
  exists cs,
    canvas (plot_power_system 0 ["A"; "B"] (Some []) (Some "2022-03-01")
              (Some "2022-03-01") "Danmarks elsystem" true
              (sample_world (5 * HOUR))).2
    = canvas (sample_world (5 * HOUR)) ++ cs
    /\ filter (fun c => is_formatter c = true) cs = [set_major_formatter "%H:%M"].
Proof.
  apply (one_day_gets_the_clock_format 0 (sample_table (5 * HOUR)) ["A"; "B"]
           (Some []) "2022-03-01" 1646092800000000000 "Danmarks elsystem" true
           (sample_world (5 * HOUR))).
  - vm_compute. reflexivity.
  - vm_compute. reflexivity.
  - exists 1646136000000000000%Z. split; [|vm_compute; split; [discriminate|reflexivity]].
    apply (bool_decide_unpack _). vm_compute. exact I.
  - vm_compute. reflexivity.
Defined.

(** *** The value axis *)

Lemma bands_ylims d sf names : forall y,
  filter (fun c => is_ylim c = true) (bands d sf names y) = [].
Proof.
  induction names as [|name names IH]; intros y; [done|].
  simpl. destruct (assoc name (columns d)); [|done].
  rewrite !filter_cons_False by (simpl; done). apply IH.
Qed.

Lemma baseline_all d names :
  baseline d names (length names)
  = foldl vadd (zeros (length (index d))) (values d names).
Proof. unfold baseline. by rewrite firstn_all. Qed.

(** X16. In a completed call the value axis is set once, from 0 to 1.05
    times the largest value of the top edge of the stack, which is the
    upper edge of the last band; on a table without rows the upper limit
    is [NaN]. *)
Theorem value_axis_tops_the_stack
    df d names sf start end_ title_ plot_load w w' :
  heap w !! df = Some d ->
  plot_power_system df names sf start end_ title_ plot_load w = (Ok (), w') ->
  exists d' cs,
    prepared d sf start end_ = Ok d'
    /\ canvas w' = canvas w ++ cs
    /\ filter (fun c => is_ylim c = true) cs
       = [ylim 0 ((fun m => m * (105 # 100))%Q
                  <$> series_max (baseline d' names (length names)))]
    /\ (names <> [] ->
        exists x y1 color lab,
          last (filter (fun c => is_fill c = true) cs)
          = Some (fill_between x y1 (baseline d' names (length names))
                    color lab)).
Proof.
  intros Hdf Hrun.
  destruct (run_completed _ _ _ _ _ _ _ _ _ _ Hdf Hrun)
    as (d' & loads & lo & hi & Hp & Hall & Hov & _ & _ & Hc).
  apply overlay_plots in Hov as [Hplots _].
  exists d'. eexists. split; [done|]. split; [exact Hc|]. split.
  - rewrite !filter_app, bands_ylims.
    rewrite (filter_plots_nil is_ylim loads) by (done || by intros []).
    by rewrite baseline_all.
  - intros Hne.
    destruct (bands_fills d' sf names (zeros (length (index d'))) Hall)
      as [Hlen Hnth].
    assert (exists i, length names = S i) as [i Hi].
    { destruct names; [done|]. by eexists. }
    assert (is_Some (names !! i)) as [column Hcol].
    { apply lookup_lt_is_Some. lia. }
    assert (is_Some (assoc column (columns d'))) as [col Hcell].
    { rewrite Forall_forall in Hall. apply Hall.
      by eapply list_elem_of_lookup_2. }
    specialize (Hnth i column col Hcol Hcell).
    do 4 eexists. rewrite !filter_app.
    rewrite (filter_plots_nil is_fill loads) by (done || by intros []).
    replace (filter _ (finish_calls _ _ _ _ _)) with (@nil call) by done.
    replace (filter _ [rc_font _; figure _ _]) with (@nil call) by done.
    rewrite app_nil_l, !app_nil_r, last_lookup, Hlen, Hi. cbn [pred].
    rewrite Hnth, (baseline_S d' names i column col) by done. done.
Qed.

Lemma value_axis_tops_the_stack_witness :
  exists d' cs,
    prepared (sample_table HOUR) None None None = Ok d'
    /\ canvas (plot_power_system 0 ["A"; "B"] None None None
                 "Danmarks elsystem" false (sample_world HOUR)).2
       = canvas (sample_world HOUR) ++ cs
    /\ filter (fun c => is_ylim c = true) cs
       = [ylim 0 ((fun m => m * (105 # 100))%Q
                  <$> series_max (baseline d' ["A"; "B"] 2))]
    /\ (["A"; "B"] <> [] ->
        exists x y1 color lab,
          last (filter (fun c => is_fill c = true) cs)
          = Some (fill_between x y1 (baseline d' ["A"; "B"] 2) color lab)).
Proof.
  apply (value_axis_tops_the_stack 0 (sample_table HOUR) ["A"; "B"] None None
           None "Danmarks elsystem" false (sample_world HOUR)).
  - vm_compute. reflexivity.
  - vm_compute. reflexivity.
Defined.

(** *** Increasing row labels *)

Lemma StronglySorted_filter {A} (R : relation A) (P : A -> Prop)
    `{!forall x, Decision (P x)} (l : list A) :
  StronglySorted R l -> StronglySorted R (filter P l).
Proof.
  induction 1 as [|x l _ IH Hx]; [constructor|].
  rewrite filter_cons. destruct (decide (P x)); [|done].
  constructor; [done|]. rewrite Forall_forall in Hx |- *.
  intros y [_ Hy]%list_elem_of_filter. by apply Hx.
Qed.

Lemma increasing_is_monotonic (l : list Z) :
  StronglySorted Z.lt l -> is_monotonic_increasing l = true.
Proof.
  intros Hs. apply bool_decide_eq_true_2.
  induction Hs as [|x l _ IH Hx]; constructor; [done|].
  destruct Hx as [|y l Hy _]; constructor. lia.
Qed.

Lemma prepared_increasing d sf start end_ :
  StronglySorted Z.lt (index d) ->
  (forall s, start = Some s -> s = "" \/ is_Some (Time.parse_iso s)) ->
  (forall s, end_ = Some s -> s = "" \/ is_Some (Time.parse_iso s)) ->
  exists d', prepared d sf start end_ = Ok d'
             /\ StronglySorted Z.lt (index d').
Proof.
  intros Hs Hstart Hend. unfold prepared.
  assert (forall x s upper,
             StronglySorted Z.lt (index x) -> is_Some (Time.parse_iso s) ->
             exists x', (if upper : bool then slice_to x s else slice_from x s)
                        = Ok x'
                        /\ StronglySorted Z.lt (index x')) as Hslice.
  { intros x s upper Hx [[t r] Hparse].
    destruct upper; unfold slice_to, slice_from, cast_slice_bound, check_bound;
      rewrite Hparse, (increasing_is_monotonic _ Hx); simpl;
      eexists; (split; [done|]);
      rewrite where_index_index; by apply StronglySorted_filter. }
  rewrite <- (scaled_index sf d) in Hs.
  assert (exists x, match start with
                    | Some (String _ _ as s) => slice_from (scaled sf d) s
                    | _ => Ok (scaled sf d)
                    end = Ok x /\ StronglySorted Z.lt (index x))
    as (x & -> & Hx).
  { destruct start as [[|a s]|]; [by eexists| |by eexists].
    destruct (Hstart _ eq_refl) as [?|Hparse]; [done|].
    apply (Hslice _ _ false Hs Hparse). }
  simpl. destruct end_ as [[|b s]|]; [by eexists| |by eexists].
  destruct (Hend _ eq_refl) as [?|Hparse]; [done|].
  apply (Hslice _ _ true Hx Hparse).
Qed.

End PlotMore.

(** ** The loader and the renderer together *)

Module PipelineFacts.
Import Plot PlotFacts PlotMore.



End PipelineFacts.
